(** * Feature scraper (features/update_features.py): model and properties

    The script mirrors the settings screens of every branch of a remote
    repository into one JSON tree per branch.  This file embeds its
    functions in Rocq, one definition per Python function and under the
    same name, and proves the properties the specification states about
    them.

    Conventions of the embedding:
    - a Python [str] is a [string]; an optional value ([None] or a [str])
      is an [option string]; truthiness of such a value is [truthy];
    - a dict that is only queried by key (a string table, the attributes
      of an XML element) is a [gmap]; a dict whose insertion order reaches
      a file (the replacement store, the output tree) is an insertion
      ordered association list ([odict]);
    - the XML parser, the HTTP client and the terminal are collaborators:
      the first two are section variables, the terminal is the pair of
      queues [w_stdin] and [w_stdout] of the [world];
    - the file system is the text of replacements.json and the trees under
      branches/.  Writing is taken to succeed, so the [except] branches of
      lines 87-88 and 196-197 are outside the model, and so are a store
      or a tree that cannot be encoded and a branch name that is no file
      name.  The replacement store maps keys to strings, which is what the
      script itself puts into it; a replacements.json holding another JSON
      document is read as a text that does not decode. *)

From Stdlib Require Import String Ascii List Bool Arith NArith Lia.
From stdpp Require Import base option list strings gmap.

Import ListNotations.
Local Open Scope string_scope.
Local Open Scope list_scope.
Set Warnings "-register-all,-clear-no-such-hyp".

(** ** Python string primitives *)

Module PyStr.

(** [s.startswith(p)]. *)
Fixpoint startswith (p s : string) : bool :=
  match p, s with
  | EmptyString, _ => true
  | String a p', String b s' => if Ascii.eqb a b then startswith p' s' else false
  | String _ _, EmptyString => false
  end.

(** [s[n:]]. *)
Fixpoint drop (n : nat) (s : string) : string :=
  match n, s with
  | O, _ => s
  | S n', String _ s' => drop n' s'
  | S _, EmptyString => EmptyString
  end.

(** [sub in s], and what [re.search] answers for a pattern without
    metacharacters. *)
Fixpoint contains (sub s : string) : bool :=
  if startswith sub s then true
  else match s with
       | EmptyString => false
       | String _ s' => contains sub s'
       end.

(** [s.split(sep)[0]] for a non-empty [sep]: the text before the first
    occurrence of [sep], all of [s] when there is none. *)
Fixpoint split_head (sep s : string) : string :=
  match s with
  | EmptyString => EmptyString
  | String c s' =>
      if startswith sep s then EmptyString else String c (split_head sep s')
  end.

(** [s.split(sep, 1)] for a non-empty [sep]: one piece when [sep] does not
    occur, else the text before and the text after its first occurrence. *)
Fixpoint split1 (sep s : string) : list string :=
  match s with
  | EmptyString => [EmptyString]
  | String c s' =>
      if startswith sep s then [EmptyString; drop (String.length sep) s]
      else match split1 sep s' with
           | hd :: tl => String c hd :: tl
           | [] => []
           end
  end.

(** [s.replace(old, new)] for a non-empty [old]: the occurrences of [old]
    are found from the left and do not overlap.  [skip] counts the
    characters of the occurrence just replaced that are still to be
    passed over. *)
Fixpoint replace_from (old new : string) (skip : nat) (s : string) : string :=
  match s with
  | EmptyString => EmptyString
  | String c s' =>
      match skip with
      | S k => replace_from old new k s'
      | O =>
          if startswith old s
          then new +:+ replace_from old new (String.length old - 1) s'
          else String c (replace_from old new 0 s')
      end
  end.

Definition replace (old new s : string) : string := replace_from old new 0 s.

(** What [str.isspace] answers for a character of the ASCII range. *)
Definition isspace (c : ascii) : bool :=
  let n := nat_of_ascii c in
  (((9 <=? n) && (n <=? 13)) || ((28 <=? n) && (n <=? 32)))%nat.

(** The white space beyond the ASCII range, by the bytes UTF-8 gives each
    character: U+0085 and U+00A0 take two bytes; U+1680, U+2000 to U+200A,
    U+2028, U+2029, U+202F, U+205F and U+3000 take three.  With the ASCII
    ones these are all the characters for which [str.isspace] holds. *)
Definition isspace2 (a b : ascii) : bool :=
  let '(x, y) := (nat_of_ascii a, nat_of_ascii b) in
  ((x =? 194) && ((y =? 133) || (y =? 160)))%nat.

Definition isspace3 (a b c : ascii) : bool :=
  let '(x, y, z) := (nat_of_ascii a, nat_of_ascii b, nat_of_ascii c) in
  (((x =? 225) && (y =? 154) && (z =? 128))
   || ((x =? 226) && (y =? 128)
       && (((128 <=? z) && (z <=? 138)) || (z =? 168) || (z =? 169) || (z =? 175)))
   || ((x =? 226) && (y =? 129) && (z =? 159))
   || ((x =? 227) && (y =? 128) && (z =? 128)))%nat.

(** [s.lstrip()]: the leading white space characters go, whether they
    take one, two or three bytes. *)
Fixpoint lstrip (s : string) : string :=
  match s with
  | EmptyString => EmptyString
  | String a s1 =>
      if isspace a then lstrip s1
      else
        match s1 with
        | EmptyString => s
        | String b s2 =>
            if isspace2 a b then lstrip s2
            else
              match s2 with
              | EmptyString => s
              | String c s3 => if isspace3 a b c then lstrip s3 else s
              end
        end
  end.

(** [s.rstrip()]: the text ends where nothing but white space follows. *)
Fixpoint rstrip (s : string) : string :=
  match s with
  | EmptyString => EmptyString
  | String c s' =>
      match lstrip s with
      | EmptyString => EmptyString
      | String _ _ => String c (rstrip s')
      end
  end.

(** [s.strip()]. *)
Definition strip (s : string) : string := rstrip (lstrip s).

(** [re.sub('', repl, s)]: the empty pattern matches once before every
    character and once at the end of [s]. *)
Fixpoint re_sub_empty (repl s : string) : string :=
  repl +:+ match s with
          | EmptyString => EmptyString
          | String c s' => String c (re_sub_empty repl s')
          end.

(** [x or ""] and [not x] for an optional string. *)
Definition truthy (x : option string) : bool :=
  match x with
  | Some (String _ _) => true
  | _ => false
  end.

Definition or_empty (x : option string) : string :=
  match x with
  | Some s => s
  | None => EmptyString
  end.

(** How an f-string prints an optional string. *)
Definition fmt (x : option string) : string :=
  match x with
  | Some s => s
  | None => "None"
  end.

End PyStr.

(** ** Comment stripper, string resolver, display normaliser *)

(** [re.sub(r'', '', xml_text, flags=re.DOTALL)]: the pattern of the source
    is the empty string. *)
Definition clean_xml_comments (xml_text : string) : string :=
  PyStr.re_sub_empty "" xml_text.

(** A string table; [elem.get('name')] is [None] when the attribute is
    absent, so the keys are optional strings. *)
Abbreviation StringTable := (gmap (option string) string).

(** The loop of [resolve_string] over [*string_dicts]. *)
Fixpoint scan_dicts (key : string) (string_dicts : list StringTable) : string :=
  match string_dicts with
  | [] => "<MISSING " +:+ key +:+ ">"
  | d :: rest =>
      match d !! Some key with
      | Some v => v
      | None => scan_dicts key rest
      end
  end.

(** [ref.split("/", 1)[1]] raises IndexError when the split has one piece;
    [split1_sigil] below shows that the guard of [resolve_string] excludes
    it, so the last branch is never taken. *)
Definition resolve_string (ref : option string) (string_dicts : list StringTable)
  : string :=
  if negb (PyStr.truthy ref) || negb (PyStr.startswith "@string/" (PyStr.or_empty ref))
  then PyStr.or_empty ref
  else match PyStr.split1 "/" (PyStr.or_empty ref) with
       | _ :: key :: _ => scan_dicts key string_dicts
       | _ => EmptyString
       end.

Definition clean_display_text (text : option string) : string :=
  if negb (PyStr.truthy text) then EmptyString
  else PyStr.replace "\'" "'" (PyStr.split_head "\n" (PyStr.or_empty text)).

(** Line 171: [re.search(r'%s', pref_summary) or not pref_summary]. *)
Definition needs_override (pref_summary : string) : bool :=
  PyStr.contains "%s" pref_summary || negb (PyStr.truthy (Some pref_summary)).

(** ** Insertion-ordered dicts *)

Section ODict.
Context {K V : Type} `{EqDecision K}.

Definition odict := list (K * V).

(** [k in d] and [d[k]]. *)
Fixpoint dict_get (k : K) (d : odict) : option V :=
  match d with
  | [] => None
  | (k', v) :: d' => if decide (k = k') then Some v else dict_get k d'
  end.

(** [d[k] = v]: a key already present keeps its place and takes the new
    value, a new key goes to the end. *)
Fixpoint dict_set (k : K) (v : V) (d : odict) : odict :=
  match d with
  | [] => [(k, v)]
  | (k', v') :: d' =>
      if decide (k = k') then (k, v) :: d' else (k', v') :: dict_set k v d'
  end.

(** [dict(pairs)], and a dict comprehension over [pairs]. *)
Definition dict_of_pairs (pairs : list (K * V)) : odict :=
  fold_left (fun d kv => dict_set kv.1 kv.2 d) pairs [].

Definition dict_keys (d : odict) : list K := d.*1.

End ODict.

Arguments odict : clear implicits.

(** ** XML elements as xml.etree.ElementTree presents them *)

Inductive Element : Type :=
  mkElement (tag : string) (attrib : gmap string string)
            (text : option string) (children : list Element).

Definition tag (e : Element) : string := let 'mkElement t _ _ _ := e in t.
Definition attrib (e : Element) : gmap string string :=
  let 'mkElement _ a _ _ := e in a.
Definition text (e : Element) : option string := let 'mkElement _ _ t _ := e in t.
Definition children (e : Element) : list Element :=
  let 'mkElement _ _ _ c := e in c.

(** [element.get(name)]. *)
Definition get (name : string) (e : Element) : option string := attrib e !! name.

(** [element.findall(name)] for a plain tag name: the direct children with
    that tag, in document order. *)
Definition findall (name : string) (e : Element) : list Element :=
  filter (fun c => tag c = name) (children e).

Definition get_android_attr (element : Element) (attr : string) : option string :=
  get ("{http://schemas.android.com/apk/res/android}" +:+ attr) element.

(** ** Descriptors *)

Record Pref := mkPref {
  key : option string;
  title_key : option string;
  summary_key : option string
}.

Record Category := mkCategory {
  cat_title_key : option string;
  preferences : list Pref
}.

Record MainCat := mkMainCat {
  mc_key : option string;
  mc_title : string;
  mc_summary : string;
  mc_sub_preferences : list Category
}.

(** A value of the output tree: a summary text or the features of a
    sub-category. *)
Inductive pyval :=
  | PStr (s : string)
  | PDict (d : odict string string).

(** One element of [output_data_for_branch]: the dict with the single key
    [main_cat_title], kept as the pair of that key and its value. *)
Definition Entry : Type := string * odict string pyval.

(** The replacement store: [pref_key] is [None] for a preference without a
    key attribute. *)
Abbreviation Store := (odict (option string) string).

(** ** State and exceptions *)

Inductive exn := ParseError | EOFError.

Inductive result (A : Type) :=
  | Ok (a : A)
  | Raise (e : exn).
Arguments Ok {A} a.
Arguments Raise {A} e.

(** The terminal, the store object that [main] creates and every call of
    [scrape_features] mutates, the text of replacements.json (absent until
    written) and the trees dumped under branches/. *)
Record world := mkWorld {
  w_stdin : list string;
  w_stdout : list string;
  w_replacements : Store;
  w_replacements_json : option string;
  w_branches : odict string (list Entry)
}.

Definition M (A : Type) : Type := world -> result A * world.

Definition ret {A} (a : A) : M A := fun w => (Ok a, w).
Definition raise {A} (e : exn) : M A := fun w => (Raise e, w).
Definition bind {A B} (m : M A) (k : A -> M B) : M B :=
  fun w => match m w with
           | (Ok a, w') => k a w'
           | (Raise e, w') => (Raise e, w')
           end.

Notation "'let*' x := m 'in' k" := (bind m (fun x => k))
  (at level 10, x binder, m at level 100, k at level 200).

(** [print(msg)]. *)
Definition print (msg : string) : M unit :=
  fun w => (Ok tt, mkWorld (w_stdin w) (w_stdout w ++ [msg]) (w_replacements w)
                           (w_replacements_json w) (w_branches w)).

Definition ESC : string := String "027" EmptyString.

Definition print_error (msg : string) : M unit :=
  print (ESC +:+ "[91m" +:+ msg +:+ ESC +:+ "[0m").

(** [input(prompt)]: shows the prompt and takes the next line of the
    terminal; EOFError when there is none. *)
Definition input (prompt : string) : M string :=
  fun w => match w_stdin w with
           | line :: rest =>
               (Ok line, mkWorld rest (w_stdout w ++ [prompt]) (w_replacements w)
                                 (w_replacements_json w) (w_branches w))
           | [] =>
               (Raise EOFError, mkWorld [] (w_stdout w ++ [prompt]) (w_replacements w)
                                        (w_replacements_json w) (w_branches w))
           end.

Definition get_replacements : M Store := fun w => (Ok (w_replacements w), w).

Definition set_replacements (r : Store) : M unit :=
  fun w => (Ok tt, mkWorld (w_stdin w) (w_stdout w) r
                           (w_replacements_json w) (w_branches w)).

Definition write_replacements_json (content : string) : M unit :=
  fun w => (Ok tt, mkWorld (w_stdin w) (w_stdout w) (w_replacements w)
                           (Some content) (w_branches w)).

Definition read_replacements_json : M (option string) :=
  fun w => (Ok (w_replacements_json w), w).

(** [json.dump(tree, f, indent=4, ensure_ascii=False)] into [filename]
    (lines 192-194); the model keeps the dumped tree in place of its text.
    The write is taken to succeed: the [except] branch of lines 196-197,
    reached when [open] refuses the name, is not modelled. *)
Definition write_branch (filename : string) (tree : list Entry) : M unit :=
  fun w => (Ok tt, mkWorld (w_stdin w) (w_stdout w) (w_replacements w)
                           (w_replacements_json w)
                           (dict_set filename tree (w_branches w))).

Definition lift_parse {A} (x : option A) : M A :=
  match x with
  | Some a => ret a
  | None => raise ParseError
  end.

Fixpoint foldM {A B} (f : B -> A -> M B) (acc : B) (xs : list A) : M B :=
  match xs with
  | [] => ret acc
  | x :: xs' => let* acc' := f acc x in foldM f acc' xs'
  end.

(** ** The json module, as far as the replacement store uses it

    [json.dump(d, f, indent=4, ensure_ascii=False)] for a dict of strings,
    and [json.load] for a text holding an object whose values are strings,
    the only shape a store has.  A text of any other JSON shape is answered
    like a malformed one. *)

Module Json.

Definition dq : ascii := "034"%char.
Definition NL : string := String "010" EmptyString.

Definition hex_digit (n : N) : ascii :=
  ascii_of_N (if (n <? 10)%N then 48 + n else 87 + n)%N.

(** [ESCAPE_DCT] of json.encoder: the quote, the backslash and the
    control characters are escaped, everything else is kept. *)
Definition escape_char (c : ascii) : string :=
  let n := N_of_ascii c in
  if (n =? 34)%N then String "\" (String dq EmptyString)
  else if (n =? 92)%N then "\\"
  else if (n =? 8)%N then "\b"
  else if (n =? 12)%N then "\f"
  else if (n =? 10)%N then "\n"
  else if (n =? 13)%N then "\r"
  else if (n =? 9)%N then "\t"
  else if (n <? 32)%N
       then "\u00" +:+ String (hex_digit (n / 16)) (String (hex_digit (n mod 16)) EmptyString)
  else String c EmptyString.

Fixpoint escape (s : string) : string :=
  match s with
  | EmptyString => EmptyString
  | String c s' => escape_char c +:+ escape s'
  end.

Definition encode_basestring (s : string) : string :=
  String dq (escape s +:+ String dq EmptyString).

(** A key that is [None] is written as null. *)
Definition json_key (k : option string) : string :=
  match k with
  | Some s => s
  | None => "null"
  end.

Definition dump_item (kv : option string * string) : string :=
  encode_basestring (json_key kv.1) +:+ ": " +:+ encode_basestring kv.2.

Definition newline_indent : string := NL +:+ "    ".

Fixpoint dump_items (items : list (option string * string)) : string :=
  match items with
  | [] => EmptyString
  | [kv] => dump_item kv
  | kv :: rest => dump_item kv +:+ "," +:+ newline_indent +:+ dump_items rest
  end.

Definition dumps (d : odict (option string) string) : string :=
  match d with
  | [] => "{}"
  | _ :: _ => "{" +:+ newline_indent +:+ dump_items d +:+ NL +:+ "}"
  end.

(** The decoder. *)

Definition is_ws (c : ascii) : bool :=
  let n := N_of_ascii c in
  ((n =? 32) || (n =? 9) || (n =? 10) || (n =? 13))%N.

Fixpoint skip_ws (s : string) : string :=
  match s with
  | EmptyString => EmptyString
  | String c s' => if is_ws c then skip_ws s' else s
  end.

Definition hexval (c : ascii) : option N :=
  let n := N_of_ascii c in
  if ((48 <=? n) && (n <=? 57))%N then Some (n - 48)%N
  else if ((97 <=? n) && (n <=? 102))%N then Some (n - 87)%N
  else if ((65 <=? n) && (n <=? 70))%N then Some (n - 55)%N
  else None.

Definition hex4 (a b c d : ascii) : option N :=
  x ← hexval a; y ← hexval b; z ← hexval c; t ← hexval d;
  Some (((x * 16 + y) * 16 + z) * 16 + t)%N.

(** [chr(n)] as the bytes UTF-8 gives it. *)
Definition chr (n : N) : string :=
  let byte (k : N) := ascii_of_N k in
  let cont (k : N) := byte (128 + k mod 64)%N in
  if (n <? 128)%N then String (byte n) EmptyString
  else if (n <? 2048)%N then String (byte (192 + n / 64)%N) (String (cont n) EmptyString)
  else if (n <? 65536)%N
       then String (byte (224 + n / 4096)%N)
                   (String (cont (n / 64)%N) (String (cont n) EmptyString))
  else String (byte (240 + n / 262144)%N)
              (String (cont (n / 4096)%N)
                      (String (cont (n / 64)%N) (String (cont n) EmptyString))).

(** [BACKSLASH] of json.decoder. *)
Definition unescape (esc : ascii) : option ascii :=
  let n := N_of_ascii esc in
  if (n =? 34)%N then Some dq
  else if (n =? 92)%N then Some "\"%char
  else if (n =? 47)%N then Some "/"%char
  else if (n =? 98)%N then Some "008"%char
  else if (n =? 102)%N then Some "012"%char
  else if (n =? 110)%N then Some "010"%char
  else if (n =? 114)%N then Some "013"%char
  else if (n =? 116)%N then Some "009"%char
  else None.

Definition is_high (n : N) : bool := ((55296 <=? n) && (n <=? 56319))%N.
Definition is_low (n : N) : bool := ((56320 <=? n) && (n <=? 57343))%N.
Definition pair_point (hi lo : N) : N :=
  (65536 + ((hi - 55296) * 1024 + (lo - 56320)))%N.

Definition push (pre : string) (r : option (string * string))
  : option (string * string) :=
  match r with
  | Some (s, rest) => Some (pre +:+ s, rest)
  | None => None
  end.

(** [scanstring] in strict mode, from the character after the opening
    quote: the decoded string and the text after the closing quote.  A
    raw control character, an unknown escape and a missing closing quote
    are errors.  A high surrogate followed by the escape of a low one
    gives the character of the pair. *)
Fixpoint scanstring (s : string) : option (string * string) :=
  match s with
  | EmptyString => None
  | String c rest =>
      if Ascii.eqb c dq then Some (EmptyString, rest)
      else if Ascii.eqb c "\" then
        match rest with
        | EmptyString => None
        | String esc rest1 =>
            if Ascii.eqb esc "u" then
              match rest1 with
              | String h1 (String h2 (String h3 (String h4 rest2))) =>
                  match hex4 h1 h2 h3 h4 with
                  | None => None
                  | Some uni =>
                      if is_high uni then
                        match rest2 with
                        | String b (String u (String l1 (String l2
                            (String l3 (String l4 rest3))))) =>
                            match (if Ascii.eqb b "\" && Ascii.eqb u "u"
                                   then hex4 l1 l2 l3 l4 else None) with
                            | Some uni2 =>
                                if is_low uni2
                                then push (chr (pair_point uni uni2)) (scanstring rest3)
                                else push (chr uni) (scanstring rest2)
                            | None => push (chr uni) (scanstring rest2)
                            end
                        | _ => push (chr uni) (scanstring rest2)
                        end
                      else push (chr uni) (scanstring rest2)
                  end
              | _ => None
              end
            else
              match unescape esc with
              | Some ch => push (String ch EmptyString) (scanstring rest1)
              | None => None
              end
        end
      else if (N_of_ascii c <? 32)%N then None
      else push (String c EmptyString) (scanstring rest)
  end.

(** The loop of [JSONObject], entered after the opening quote of a key;
    every round reads one member. *)
Fixpoint parse_members (fuel : nat) (s : string) (pairs : list (string * string))
  : option (list (string * string) * string) :=
  match fuel with
  | O => None
  | S fuel' =>
      '(key, s1) ← scanstring s;
      match skip_ws s1 with
      | String colon s2 =>
          if Ascii.eqb colon ":" then
            match skip_ws s2 with
            | String q s3 =>
                if Ascii.eqb q dq then
                  '(value, s4) ← scanstring s3;
                  let pairs' := pairs ++ [(key, value)] in
                  match skip_ws s4 with
                  | String d s5 =>
                      if Ascii.eqb d "}" then Some (pairs', s5)
                      else if Ascii.eqb d "," then
                        match skip_ws s5 with
                        | String q' s6 =>
                            if Ascii.eqb q' dq then parse_members fuel' s6 pairs'
                            else None
                        | EmptyString => None
                        end
                      else None
                  | EmptyString => None
                  end
                else None
            | EmptyString => None
            end
          else None
      | EmptyString => None
      end
  end.

Definition parse_object (s : string) : option (list (string * string) * string) :=
  match skip_ws s with
  | String c s' =>
      if Ascii.eqb c "}" then Some ([], s')
      else if Ascii.eqb c dq then parse_members (String.length s') s' []
      else None
  | EmptyString => None
  end.

(** [json.loads] on the documents [dumps] writes: white space, one object
    whose members are strings, white space, end of text.  Any other text is
    refused, also a JSON document of another shape, which the library would
    decode; the bytes of a string are taken as they stand. *)
Definition loads (s : string) : option (odict (option string) string) :=
  match skip_ws s with
  | String c s' =>
      if Ascii.eqb c "{" then
        '(pairs, rest) ← parse_object s';
        match skip_ws rest with
        | EmptyString => Some (dict_of_pairs (map (fun kv => (Some kv.1, kv.2)) pairs))
        | String _ _ => None
        end
      else None
  | EmptyString => None
  end.

(** The text of the members of an object after the opening quote of the
    first key, [final] being what follows the closing brace. *)
Fixpoint members_text (kv : option string * string)
    (rest : list (option string * string)) (final : string) : string :=
  escape (json_key kv.1)
  +:+ String dq (String ":" (String " " (String dq
        (escape kv.2
         +:+ String dq
               match rest with
               | [] => String "010" (String "}" final)
               | kv' :: rest' =>
                   String "," (String "010" (String " " (String " " (String " "
                     (String " " (String dq (members_text kv' rest' final)))))))
               end)))).

End Json.

(** ** The scraper *)

(** The address line 24 builds. *)
Definition raw_url (repo branch filepath : string) : string :=
  "https://raw.githubusercontent.com/Evolution-X/" +:+ repo +:+ "/"
  +:+ branch +:+ "/" +:+ filepath.

Section Scraper.

(** [ET.fromstring]: the root element, or [None] for the ParseError it
    raises on text that is not well-formed. *)
Variable fromstring : string -> option Element.

(** [requests.get(url, headers=...)] followed by [raise_for_status()]:
    the text of the response, or the message of the RequestException. *)
Variable requests_get : string -> string -> string + string.

Definition fetch_file_content (branch filepath token repo : string)
  : M (option string) :=
  let url := raw_url repo branch filepath in
  match requests_get url token with
  | inr response_text => ret (Some response_text)
  | inl e =>
      let* _ := print_error ("Failed to fetch " +:+ filepath +:+ " from " +:+ repo
                             +:+ "/" +:+ branch +:+ ": " +:+ e) in
      ret None
  end.

Definition parse_strings_xml (xml_text : string) : option StringTable :=
  root ← fromstring xml_text;
  Some (fold_left
          (fun d elem => <[get "name" elem := PyStr.or_empty (text elem)]> d)
          (findall "string" root) ∅).

(** The descriptors of the children of one category element that carry
    a title. *)
Definition fragment_prefs (category_elem : Element) : list Pref :=
  omap (fun pref_elem =>
          let title_key := get_android_attr pref_elem "title" in
          if PyStr.truthy title_key
          then Some (mkPref (get_android_attr pref_elem "key") title_key
                            (get_android_attr pref_elem "summary"))
          else None)
       (children category_elem).

Definition parse_preference_fragment_xml (xml_text : string)
  : option (list Category) :=
  let clean_text := clean_xml_comments xml_text in
  root ← fromstring clean_text;
  Some (map (fun category_elem =>
               mkCategory (get_android_attr category_elem "title")
                          (fragment_prefs category_elem))
            (findall "PreferenceCategory" root)).

(** Lines 172-181: the store first, the terminal next. *)
Definition override_summary (pref_key : option string)
    (pref_title pref_summary : string) : M string :=
  let* replacements := get_replacements in
  match dict_get pref_key replacements with
  | Some stored => ret stored
  | None =>
      let* _ := print ("Action needed for '" +:+ pref_title +:+ "' (Key: "
                       +:+ PyStr.fmt pref_key +:+ "). Current summary: '"
                       +:+ pref_summary +:+ "'") in
      let* reply := input "Enter replacement summary (leave empty to skip): " in
      let new_summary := PyStr.strip reply in
      if PyStr.truthy (Some new_summary)
      then
        let* _ := set_replacements (dict_set pref_key new_summary replacements) in
        ret new_summary
      else ret " "
  end.

(** Lines 167-183: one preference of a sub-category.  The descriptor
    always has the entry key, so [pref.get("key", "<no-key>")] is its
    value, [None] when the element has no key attribute. *)
Definition visit_pref (chain : list StringTable)
    (sub_cat_features : odict string string) (pref : Pref)
  : M (odict string string) :=
  let pref_key := key pref in
  let pref_title := clean_display_text (Some (resolve_string (title_key pref) chain)) in
  let pref_summary := clean_display_text (Some (resolve_string (summary_key pref) chain)) in
  let* pref_summary :=
    (if needs_override pref_summary
     then override_summary pref_key pref_title pref_summary
     else ret pref_summary) in
  ret (dict_set pref_title pref_summary sub_cat_features).

(** Lines 162-185: one sub-category of a category. *)
Definition visit_sub_cat (chain : list StringTable)
    (cat_entry : odict string pyval) (sub_cat : Category)
  : M (odict string pyval) :=
  let sub_cat_title :=
    clean_display_text (Some (resolve_string (cat_title_key sub_cat) chain)) in
  let* sub_cat_features := foldM (visit_pref chain) [] (preferences sub_cat) in
  ret (dict_set sub_cat_title (PDict sub_cat_features) cat_entry).

(** Lines 154-187: one category. *)
Definition visit_main_cat (chain : list StringTable)
    (output_data_for_branch : list Entry) (main_cat : MainCat)
  : M (list Entry) :=
  let main_cat_title := mc_title main_cat in
  let* cat_entry :=
    foldM (visit_sub_cat chain) [("summary", PStr (mc_summary main_cat))]
          (mc_sub_preferences main_cat) in
  ret (output_data_for_branch ++ [(main_cat_title, cat_entry)]).

(** Lines 115-117: the table of the branch. *)
Definition load_strings_dict (branch token : string) : M StringTable :=
  let* evolver_strings :=
    fetch_file_content branch "res/values/evolution_strings.xml" token
                       "packages_apps_Evolver" in
  if PyStr.truthy evolver_strings
  then lift_parse (parse_strings_xml (PyStr.or_empty evolver_strings))
  else ret ∅.

Definition fallback_files : list (string * string) :=
  [ ("packages_apps_Settings", "res/values/evolution_strings.xml");
    ("packages_apps_Settings", "res/values/strings.xml");
    ("packages_apps_Settings", "res/values/cm_strings.xml") ].

(** Lines 119-126: the fallback tables. *)
Definition load_fallback (branch token : string)
    (fallback_strings : list StringTable) (file : string * string)
  : M (list StringTable) :=
  let '(repo_name, file_path) := file in
  let* content := fetch_file_content branch file_path token repo_name in
  if PyStr.truthy content
  then
    let* table := lift_parse (parse_strings_xml (PyStr.or_empty content)) in
    ret (fallback_strings ++ [table])
  else ret fallback_strings.

(** Lines 129-151: one top-level preference. *)
Definition load_main_cat (branch token : string) (chain : list StringTable)
    (processed_categories_data : list MainCat) (main_pref : Pref)
  : M (list MainCat) :=
  let key := key main_pref in
  if decide (key = Some "about") then ret processed_categories_data
  else
    let title := clean_display_text (Some (resolve_string (title_key main_pref) chain)) in
    let summary := clean_display_text (Some (resolve_string (summary_key main_pref) chain)) in
    let fragment_xml_path :=
      ("res/xml/evolution_settings_" +:+ PyStr.fmt key +:+ ".xml" ) in
    let* fragment_content :=
      fetch_file_content branch fragment_xml_path token "packages_apps_Evolver" in
    let* sub_preferences_data :=
      (if PyStr.truthy fragment_content
       then lift_parse (parse_preference_fragment_xml (PyStr.or_empty fragment_content))
       else
         let* _ := print_error ("Missing fragment XML for '" +:+ PyStr.fmt key +:+ "' ("
                                +:+ fragment_xml_path +:+ ") on " +:+ branch +:+ ".") in
         ret []) in
    ret (processed_categories_data
         ++ [mkMainCat key title summary sub_preferences_data]).

(** Lines 100-106. *)
Definition main_preferences_of (main_root : Element) : list Pref :=
  map (fun pref_elem =>
         mkPref (get_android_attr pref_elem "key")
                (get_android_attr pref_elem "title")
                (get_android_attr pref_elem "summary"))
      (findall "Preference" main_root).

(** [os.path.join(a, b)] for a relative [a] without a trailing slash. *)
Definition os_path_join (a b : string) : string :=
  if PyStr.startswith "/" b then b else a +:+ "/" +:+ b.

(** Lines 112-197, from the descriptors of the top-level listing on. *)
Definition scrape_preferences (branch token : string)
    (main_preferences : list Pref) : M unit :=
  let* strings_dict := load_strings_dict branch token in
  let* fallback_strings := foldM (load_fallback branch token) [] fallback_files in
  let chain := strings_dict :: fallback_strings in
  let* processed_categories_data :=
    foldM (load_main_cat branch token chain) [] main_preferences in
  let* output_data_for_branch :=
    foldM (visit_main_cat chain) [] processed_categories_data in
  let filename := os_path_join "branches" (branch +:+ ".json" ) in
  let* _ := write_branch filename output_data_for_branch in
  print ("Saved to " +:+ filename).

Definition scrape_features (branch token : string) : M unit :=
  let* _ := print ("Scraping " +:+ branch) in
  let* main_xml_content :=
    fetch_file_content branch "res/xml/evolution_settings.xml" token
                       "packages_apps_Evolver" in
  if negb (PyStr.truthy main_xml_content)
  then print_error ("Skipping " +:+ branch +:+ ": evolution_settings.xml not found.")
  else
    let* main_root :=
      lift_parse (fromstring (clean_xml_comments (PyStr.or_empty main_xml_content))) in
    let main_preferences := main_preferences_of main_root in
    match main_preferences with
    | [] => print ("No top-level preferences found in evolution_settings.xml for "
                   +:+ branch +:+ ".")
    | _ :: _ => scrape_preferences branch token main_preferences
    end.

End Scraper.

(** ** The replacement store and the run *)

Section Run.

Variable fromstring : string -> option Element.
Variable requests_get : string -> string -> string + string.

(** The message of the exception [json.load] raises on a text. *)
Variable json_error : string -> string.

(** Lines 73-80.  The text is decoded with [Json.loads], so the store that
    is returned is a store of strings; every failure of lines 76-77 is the
    exception line 78 catches. *)
Definition load_replacements : M Store :=
  let* content := read_replacements_json in
  match content with
  | Some content_text =>
      match Json.loads content_text with
      | Some replacements => ret replacements
      | None =>
          let* _ := print_error ("Error loading replacements.json: "
                                 +:+ json_error content_text) in
          ret []
      end
  | None => ret []
  end.

(** Lines 83-86, for a write that succeeds; the [except] branch of lines
    87-88 is not modelled. *)
Definition save_replacements (replacements : Store) : M unit :=
  write_replacements_json (Json.dumps replacements +:+ Json.NL).

(** Lines 215-221 of [main]; [branches] is what the discovery request
    answered. *)
Definition main (github_token : string) (branches : list string) : M unit :=
  let* replacements := load_replacements in
  let* _ := set_replacements replacements in
  let* _ := foldM (fun _ branch =>
                     scrape_features fromstring requests_get branch github_token)
                  tt branches in
  let* replacements := get_replacements in
  let* _ := save_replacements replacements in
  print "Done scraping features".

End Run.

(** ** Reference definitions

    The functions of the specification, written after its words; the
    properties below compare them with the functions of the source. *)

Definition sigil : string := "@string/".

(** The marker that stands for a reference no table resolves. *)
Definition missing_marker (k : string) : string := "<MISSING " +:+ k +:+ ">".

(** The earliest table of the chain that contains [k]. *)
Definition earliest_table (k : string) (chain : list StringTable)
  : option StringTable :=
  List.find (fun d => bool_decide (is_Some (d !! Some k))) chain.

Definition resolve_spec (ref : option string) (chain : list StringTable) : string :=
  match ref with
  | None => EmptyString
  | Some r =>
      if PyStr.startswith sigil r then
        let k := PyStr.drop (String.length sigil) r in
        match earliest_table k chain with
        | Some d => default EmptyString (d !! Some k)
        | None => missing_marker k
        end
      else r
  end.

(** The text before the first escaped-newline marker (a backslash
    followed by the letter n). *)
Fixpoint first_line (s : string) : string :=
  match s with
  | String c1 (String c2 _ as s') =>
      if Ascii.eqb c1 "\" && Ascii.eqb c2 "n" then EmptyString
      else String c1 (first_line s')
  | _ => s
  end.

(** Every escaped quote (a backslash followed by a single quote) gives a
    single quote. *)
Fixpoint unescape_quotes (s : string) : string :=
  match s with
  | String c1 (String c2 rest as s') =>
      if Ascii.eqb c1 "\" && Ascii.eqb c2 "'" then String c2 (unescape_quotes rest)
      else String c1 (unescape_quotes s')
  | _ => s
  end.

Definition normalize_spec (text : option string) : string :=
  match text with
  | None => EmptyString
  | Some s => unescape_quotes (first_line s)
  end.

(** The title and the summary of a preference as lines 168-169 compute
    them. *)
Definition pref_title (chain : list StringTable) (pref : Pref) : string :=
  clean_display_text (Some (resolve_string (title_key pref) chain)).

Definition pref_summary (chain : list StringTable) (pref : Pref) : string :=
  clean_display_text (Some (resolve_string (summary_key pref) chain)).

(** The state once the question of lines 175-176 was shown, [rest] being
    what the terminal still holds. *)
Definition asked (pref_key : option string) (title summary : string)
    (rest : list string) (w : world) : world :=
  mkWorld rest
          (w_stdout w
           ++ ["Action needed for '" +:+ title +:+ "' (Key: "
               +:+ PyStr.fmt pref_key +:+ "). Current summary: '"
               +:+ summary +:+ "'";
               "Enter replacement summary (leave empty to skip): "])
          (w_replacements w) (w_replacements_json w) (w_branches w).

(** The title of a sub-category as line 163 computes it. *)
Definition sub_cat_title (chain : list StringTable) (sub_cat : Category) : string :=
  clean_display_text (Some (resolve_string (cat_title_key sub_cat) chain)).

(** The keys of a list in the order of their first occurrences. *)
Fixpoint keep_first {K} `{EqDecision K} (l : list K) : list K :=
  match l with
  | [] => []
  | k :: l' => k :: filter (fun x => x <> k) (keep_first l')
  end.

(** What [d[k] = v] does to the keys of [d]. *)
Definition add_key {K} `{EqDecision K} (keys : list K) (k : K) : list K :=
  if decide (k ∈ keys) then keys else keys ++ [k].

(** A top-level descriptor that is not the about entry. *)
Definition not_about (p : Pref) : Prop := key p <> Some "about".

Global Instance not_about_dec (p : Pref) : Decision (not_about p).
Proof. unfold not_about. apply _. Defined.

(** Two states that differ at most by what was printed. *)
Definition printed_only (w w' : world) : Prop :=
  w_stdin w' = w_stdin w
  /\ w_replacements w' = w_replacements w
  /\ w_replacements_json w' = w_replacements_json w
  /\ w_branches w' = w_branches w.

(** What a category and its entry of the output have in common. *)
Definition features_of (chain : list StringTable) (subs : list Category)
    (cat_entry : odict string pyval) : Prop :=
  forall t features,
    dict_get t cat_entry = Some (PDict features) ->
    exists sub_cat,
      sub_cat ∈ subs
      /\ sub_cat_title chain sub_cat = t
      /\ dict_keys features = keep_first (map (pref_title chain) (preferences sub_cat)).

Definition entry_of (chain : list StringTable) (entry : Entry) (main_cat : MainCat)
  : Prop :=
  entry.1 = mc_title main_cat
  /\ dict_keys entry.2
     = keep_first ("summary" :: map (sub_cat_title chain) (mc_sub_preferences main_cat))
  /\ features_of chain (mc_sub_preferences main_cat) entry.2.

(** What a top-level descriptor and the category made of it have in
    common. *)
Definition cat_of (chain : list StringTable) (main_cat : MainCat) (main_pref : Pref)
  : Prop :=
  mc_key main_cat = key main_pref
  /\ mc_title main_cat = pref_title chain main_pref
  /\ mc_summary main_cat = pref_summary chain main_pref.

(** A computation of the loading phase: it prints at most, and the only
    exception it raises is ParseError. *)
Definition parse_phase {A} (m : M A) : Prop :=
  forall w, printed_only w (m w).2 /\ forall e, (m w).1 = Raise e -> e = ParseError.

(** A computation that ends with ParseError in every state. *)
Definition always_parse_error {A} (m : M A) : Prop :=
  forall w, exists w', m w = (Raise ParseError, w') /\ printed_only w w'.

(** A computation that leaves replacements.json as it is. *)
Definition keeps_json {A} (m : M A) : Prop :=
  forall w, w_replacements_json (m w).2 = w_replacements_json w.



(** ** A small repository

    One branch whose listing names a display category and the about
    entry; the tables and the fragment define what the end-to-end example
    of the specification describes.  [fromstring] answers the four texts
    below with their trees and every other text with ParseError. *)

Module Demo.

Definition android (attr : string) : string :=
  "{http://schemas.android.com/apk/res/android}" +:+ attr.

Definition elem (tag : string) (attrs : list (string * string))
    (text : option string) (children : list Element) : Element :=
  mkElement tag (list_to_map attrs) text children.

Definition listing_xml : string :=
  "<PreferenceScreen xmlns:android='http://schemas.android.com/apk/res/android'>"
  +:+ "<Preference android:key='display' android:title='@string/display_title'/>"
  +:+ "<Preference android:key='about' android:title='@string/about_title'/>"
  +:+ "</PreferenceScreen>".

Definition listing_root : Element :=
  elem "PreferenceScreen" [] None
    [ elem "Preference"
        [(android "key", "display"); (android "title", "@string/display_title")]
        None [];
      elem "Preference"
        [(android "key", "about"); (android "title", "@string/about_title")]
        None [] ].

Definition strings_xml : string :=
  "<resources><string name='display_title'>Display</string>"
  +:+ "<string name='brightness_title'>Brightness</string>"
  +:+ "<string name='brightness_summary'></string></resources>".

Definition strings_root : Element :=
  elem "resources" [] None
    [ elem "string" [("name", "display_title")] (Some "Display") [];
      elem "string" [("name", "brightness_title")] (Some "Brightness") [];
      elem "string" [("name", "brightness_summary")] None [] ].

Definition fragment_xml : string :=
  "<PreferenceScreen xmlns:android='http://schemas.android.com/apk/res/android'>"
  +:+ "<PreferenceCategory android:title='@string/display_title'>"
  +:+ "<SwitchPreference android:key='brightness'"
  +:+ " android:title='@string/brightness_title'"
  +:+ " android:summary='@string/brightness_summary'/>"
  +:+ "</PreferenceCategory></PreferenceScreen>".

Definition fragment_root : Element :=
  elem "PreferenceScreen" [] None
    [ elem "PreferenceCategory" [(android "title", "@string/display_title")] None
        [ elem "SwitchPreference"
            [(android "key", "brightness");
             (android "title", "@string/brightness_title");
             (android "summary", "@string/brightness_summary")]
            None [] ] ].

(** A table whose first element is never closed. *)
Definition broken_xml : string :=
  "<resources><string name='display_title'>Display</resources>".

Definition fromstring (xml_text : string) : option Element :=
  if decide (xml_text = listing_xml) then Some listing_root
  else if decide (xml_text = strings_xml) then Some strings_root
  else if decide (xml_text = fragment_xml) then Some fragment_root
  else None.

Definition not_found (url : string) : string :=
  "404 Client Error: Not Found for url: " +:+ url.

(** The remote repository; [table] is the text of the table of the
    branch. *)
Definition remote (table : string) (url token : string) : string + string :=
  if decide (url = raw_url "packages_apps_Evolver" "main"
                           "res/xml/evolution_settings.xml")
  then inr listing_xml
  else if decide (url = raw_url "packages_apps_Evolver" "main"
                                "res/values/evolution_strings.xml")
  then inr table
  else if decide (url = raw_url "packages_apps_Evolver" "main"
                                "res/xml/evolution_settings_display.xml")
  then inr fragment_xml
  else inl (not_found url).

Definition requests_get : string -> string -> string + string := remote strings_xml.
Definition requests_get_broken : string -> string -> string + string :=
  remote broken_xml.

Definition json_error (content_text : string) : string := "Expecting value".

Definition world0 (stdin : list string) : world := mkWorld stdin [] [] None [].

End Demo.

(** A file that [scrape_preferences] parses, fetched with a text that is
    not empty and that [fromstring] refuses: the table of the branch, one
    of the fallback tables, or the fragment of a top-level descriptor
    other than about. *)
Inductive malformed_file (fromstring : string -> option Element)
    (requests_get : string -> string -> string + string)
    (branch token : string) (main_preferences : list Pref) : Prop :=
  | malformed_strings (content : string) :
      requests_get (raw_url "packages_apps_Evolver" branch
                            "res/values/evolution_strings.xml") token = inr content ->
      PyStr.truthy (Some content) = true ->
      fromstring content = None ->
      malformed_file fromstring requests_get branch token main_preferences
  | malformed_fallback (repo_name file_path content : string) :
      (repo_name, file_path) ∈ fallback_files ->
      requests_get (raw_url repo_name branch file_path) token = inr content ->
      PyStr.truthy (Some content) = true ->
      fromstring content = None ->
      malformed_file fromstring requests_get branch token main_preferences
  | malformed_fragment (main_pref : Pref) (content : string) :
      main_pref ∈ main_preferences ->
      not_about main_pref ->
      requests_get (raw_url "packages_apps_Evolver" branch
                            ("res/xml/evolution_settings_"
                             +:+ PyStr.fmt (key main_pref) +:+ ".xml")) token
      = inr content ->
      PyStr.truthy (Some content) = true ->
      fromstring (clean_xml_comments content) = None ->
      malformed_file fromstring requests_get branch token main_preferences.

(** The listing of a branch is there, parses and names [main_preferences],
    at least one. *)
Definition listing_is (fromstring : string -> option Element)
    (requests_get : string -> string -> string + string)
    (branch token : string) (main_preferences : list Pref) : Prop :=
  exists content root,
    requests_get (raw_url "packages_apps_Evolver" branch
                          "res/xml/evolution_settings.xml") token = inr content
    /\ PyStr.truthy (Some content) = true
    /\ fromstring (clean_xml_comments content) = Some root
    /\ main_preferences_of root = main_preferences
    /\ main_preferences <> [].

(** A mapping from strings to strings as a store. *)
Definition store_of (m : odict string string) : Store :=
  map (fun kv => (Some kv.1, kv.2)) m.

(** The store of [w'] has every entry of the store of [w]. *)
Definition store_extends (w w' : world) : Prop :=
  forall k v,
    dict_get k (w_replacements w) = Some v -> dict_get k (w_replacements w') = Some v.

(** The store has an override for every preference of [prefs] whose
    summary is unresolved. *)
Definition covered (chain : list StringTable) (store : Store) (prefs : list Pref)
  : Prop :=
  Forall (fun p => needs_override (pref_summary chain p) = true ->
                   is_Some (dict_get (key p) store)) prefs.

(** The preferences of a category, over all its sub-categories. *)
Definition all_prefs (main_cat : MainCat) : list Pref :=
  concat (map preferences (mc_sub_preferences main_cat)).

(** The number of questions a list of categories can give rise to. *)
Definition max_prompts (cats : list MainCat) : nat :=
  length (concat (map all_prefs cats)).

(** The listing of a branch gives nothing to scrape: the request fails,
    the text is empty, or it parses and has no Preference child. *)
Definition nothing_to_scrape (fromstring : string -> option Element)
    (requests_get : string -> string -> string + string)
    (branch token : string) : Prop :=
  match requests_get (raw_url "packages_apps_Evolver" branch
                              "res/xml/evolution_settings.xml") token with
  | inl _ => True
  | inr content =>
      content = EmptyString
      \/ exists root, fromstring (clean_xml_comments content) = Some root
                      /\ findall "Preference" root = []
  end.

(** The fragment of a top-level descriptor is not there: the request
    fails or answers the empty text. *)
Definition fragment_missing (requests_get : string -> string -> string + string)
    (branch token : string) (main_pref : Pref) : Prop :=
  match requests_get (raw_url "packages_apps_Evolver" branch
                              ("res/xml/evolution_settings_"
                               +:+ PyStr.fmt (key main_pref) +:+ ".xml")) token with
  | inl _ => True
  | inr content => content = EmptyString
  end.

(** A computation that leaves the trees under branches/ as they are. *)
Definition keeps_branches {A} (m : M A) : Prop :=
  forall w, w_branches (m w).2 = w_branches w.

(** A computation that changes the store at most by adding entries. *)
Definition grows_store {A} (m : M A) : Prop :=
  forall w, store_extends w (m w).2.

(** A computation that touches no tree but the one at [filename], and
    none at all when it ends with an exception. *)
Definition writes_at_most {A} (filename : string) (m : M A) : Prop :=
  forall w,
    (forall f, f <> filename ->
               dict_get f (w_branches (m w).2) = dict_get f (w_branches w))
    /\ (forall e, (m w).1 = Raise e -> w_branches (m w).2 = w_branches w).

(** A format-substitution placeholder as Android string resources write
    it (the syntax of java.util.Formatter): a percent sign, then an
    optional argument index (digits and a dollar sign), optional flags, a
    width and a precision, and a conversion letter.  A doubled percent sign
    and the line separator substitute nothing. *)
Definition is_digit (c : ascii) : bool :=
  let n := nat_of_ascii c in ((48 <=? n) && (n <=? 57))%nat.

Definition is_flag (c : ascii) : bool := PyStr.contains (String c EmptyString) "-#+ 0,(".

Definition is_conversion (c : ascii) : bool :=
  PyStr.contains (String c EmptyString) "bBhHsScCdoxXeEfgGaA".

Fixpoint skip_digits (s : string) : string :=
  match s with
  | String c s' => if is_digit c then skip_digits s' else s
  | EmptyString => s
  end.

Fixpoint skip_flags (s : string) : string :=
  match s with
  | String c s' => if is_flag c then skip_flags s' else s
  | EmptyString => s
  end.

(** The text after a percent sign goes on as a placeholder. *)
Definition placeholder_after_percent (s : string) : bool :=
  let after_index :=
    match s, skip_digits s with
    | String c _, String d r => if is_digit c && Ascii.eqb d "$" then r else s
    | _, _ => s
    end in
  let after_width := skip_digits (skip_flags after_index) in
  let after_precision :=
    match after_width with
    | String d r => if Ascii.eqb d "." then skip_digits r else after_width
    | EmptyString => after_width
    end in
  match after_precision with
  | String c _ => is_conversion c
  | EmptyString => false
  end.

Fixpoint has_placeholder (s : string) : bool :=
  match s with
  | EmptyString => false
  | String c s' =>
      (Ascii.eqb c "%" && placeholder_after_percent s') || has_placeholder s'
  end.

(** ** The document of a branch

    What the files of a branch say, read off the answers of the remote
    repository without a run: the tables, the chain and the
    sub-categories of a top-level descriptor.  [None] stands for a text
    that does not parse. *)











(** * Properties *)

(** ** Strings *)

Lemma str_app_cons (c : ascii) (s1 s2 : string) :
  String c s1 +:+ s2 = String c (s1 +:+ s2).
Proof. reflexivity. Qed.

Lemma str_app_nil_l (s : string) : EmptyString +:+ s = s.
Proof. reflexivity. Qed.

Lemma str_app_nil_r (s : string) : s +:+ EmptyString = s.
Proof. induction s as [|c s IH]; [done|]. by rewrite str_app_cons, IH. Qed.

Lemma str_app_assoc (s1 s2 s3 : string) : (s1 +:+ s2) +:+ s3 = s1 +:+ (s2 +:+ s3).
Proof. induction s1 as [|c s1 IH]; [done|]. by rewrite !str_app_cons, IH. Qed.

Lemma startswith_app (p s : string) :
  PyStr.startswith p s = true -> s = p +:+ PyStr.drop (String.length p) s.
Proof.
  revert s; induction p as [|a p IH]; intros [|b s]; simpl; try done.
  destruct (Ascii.eqb_spec a b) as [->|]; [|done].
  intros H. rewrite str_app_cons. simpl. f_equal. by apply IH.
Qed.

Lemma re_sub_empty_nil (s : string) : PyStr.re_sub_empty EmptyString s = s.
Proof.
  induction s as [|c s IH]; [done|].
  cbn [PyStr.re_sub_empty]. by rewrite str_app_nil_l, IH.
Qed.

Lemma clean_xml_comments_id (xml_text : string) :
  clean_xml_comments xml_text = xml_text.
Proof. apply re_sub_empty_nil. Qed.

(** Under the guard of [resolve_string] the split has two pieces, the
    second of which is the text after the sigil. *)
Lemma split1_sigil (k : string) :
  PyStr.split1 "/" (sigil +:+ k) = ["@string"; k].
Proof. reflexivity. Qed.

Lemma split_head_first_line (s : string) :
  PyStr.split_head "\n" s = first_line s.
Proof.
  induction s as [|c1 s IH]; [done|].
  destruct s as [|c2 s].
  - cbn [PyStr.split_head PyStr.startswith first_line].
    destruct (Ascii.eqb "\" c1); done.
  - change (PyStr.split_head "\n" (String c1 (String c2 s)))
      with (if PyStr.startswith "\n" (String c1 (String c2 s)) then EmptyString
            else String c1 (PyStr.split_head "\n" (String c2 s))).
    change (first_line (String c1 (String c2 s)))
      with (if Ascii.eqb c1 "\" && Ascii.eqb c2 "n" then EmptyString
            else String c1 (first_line (String c2 s))).
    rewrite IH. cbn [PyStr.startswith].
    rewrite (Ascii.eqb_sym c1 "\"), (Ascii.eqb_sym c2 "n").
    destruct (Ascii.eqb "\" c1), (Ascii.eqb "n" c2); done.
Qed.

Lemma replace_unescape_quotes (s : string) :
  PyStr.replace "\'" "'" s = unescape_quotes s.
Proof.
  unfold PyStr.replace.
  cut (PyStr.replace_from "\'" "'" 0 s = unescape_quotes s
       /\ forall c, PyStr.replace_from "\'" "'" 0 (String c s)
                    = unescape_quotes (String c s)); [tauto|].
  induction s as [|c2 s [IH1 IH2]].
  - split; [done|]. intros c.
    cbn [PyStr.replace_from PyStr.startswith unescape_quotes].
    destruct (Ascii.eqb "\" c); done.
  - split; [apply IH2|]. intros c1.
    change (PyStr.replace_from "\'" "'" 0 (String c1 (String c2 s)))
      with (if PyStr.startswith "\'" (String c1 (String c2 s))
            then "'" +:+ PyStr.replace_from "\'" "'" 0 s
            else String c1 (PyStr.replace_from "\'" "'" 0 (String c2 s))).
    change (unescape_quotes (String c1 (String c2 s)))
      with (if Ascii.eqb c1 "\" && Ascii.eqb c2 "'" then String c2 (unescape_quotes s)
            else String c1 (unescape_quotes (String c2 s))).
    rewrite IH1, IH2. cbn [PyStr.startswith].
    rewrite (Ascii.eqb_sym c1 "\"), (Ascii.eqb_sym c2 "'").
    destruct (Ascii.eqb "\" c1); [|done].
    destruct (Ascii.eqb_spec "'" c2) as [<-|]; done.
Qed.

(** ** The comment stripper *)

(** C1 (the code departs from it): the stripper is to remove every comment
    span; the pattern handed to [re.sub] is empty, so a text with a
    comment comes back whole, the comment still in it. *)
Theorem clean_xml_comments_keeps_comment :
  clean_xml_comments "<a><!-- c --></a>" = "<a><!-- c --></a>"
  /\ PyStr.contains "<!--" (clean_xml_comments "<a><!-- c --></a>") = true.
Proof. split; reflexivity. Qed.

(** ** The string resolver *)

Lemma scan_dicts_spec (k : string) (chain : list StringTable) :
  scan_dicts k chain =
    match earliest_table k chain with
    | Some d => default EmptyString (d !! Some k)
    | None => missing_marker k
    end.
Proof.
  induction chain as [|d chain IH]; simpl; [done|].
  destruct (d !! Some k) as [v|] eqn:Hd.
  - rewrite bool_decide_eq_true_2 by eauto. simpl. by rewrite Hd.
  - rewrite bool_decide_eq_false_2 by (intros [? ?]; congruence). apply IH.
Qed.

(** C3: [resolve_string] is the resolver of the specification: an absent
    reference gives the empty string, a reference without the sigil comes
    back verbatim, and a reference with it gives the value of its key in the
    earliest table of the chain that has the key, or the marker
    [<MISSING key>] when no table has it. *)
Theorem resolve_string_spec (ref : option string) (chain : list StringTable) :
  resolve_string ref chain = resolve_spec ref chain.
Proof.
  unfold resolve_string, resolve_spec.
  destruct ref as [[|c r]|]; try done.
  cbn [PyStr.truthy PyStr.or_empty negb orb].
  destruct (PyStr.startswith sigil (String c r)) eqn:Hs.
  - change (PyStr.startswith "@string/" (String c r)) with
      (PyStr.startswith sigil (String c r)). rewrite Hs. cbn [negb].
    rewrite (startswith_app _ _ Hs) at 1. rewrite split1_sigil.
    apply scan_dicts_spec.
  - change (PyStr.startswith "@string/" (String c r)) with
      (PyStr.startswith sigil (String c r)). by rewrite Hs.
Qed.

(** ** The display normaliser *)

(** C7: [clean_display_text] keeps the text before the first escaped
    newline marker and turns every escaped quote of it into a quote; an empty
    or absent text gives the empty string. *)
Theorem clean_display_text_spec :
  (forall text, clean_display_text text = normalize_spec text)
  /\ clean_display_text (Some "Line1\nLine2") = "Line1"
  /\ clean_display_text (Some "don\'t") = "don't"
  /\ clean_display_text (Some EmptyString) = EmptyString
  /\ clean_display_text None = EmptyString.
Proof.
  split; [|repeat split; reflexivity].
  intros [[|c s]|]; try done.
  unfold clean_display_text, normalize_spec.
  cbn [PyStr.truthy negb PyStr.or_empty].
  by rewrite split_head_first_line, replace_unescape_quotes.
Qed.

(** ** The string table parser *)

Lemma table_of_lookup {A} (f : A -> option string) (g : A -> string)
    (l : list A) (d0 : StringTable) (k : option string) :
  fold_left (fun d e => <[f e := g e]> d) l d0 !! k =
    match last (filter (fun e => f e = k) l) with
    | Some e => Some (g e)
    | None => d0 !! k
    end.
Proof.
  induction l as [|x l IH] using rev_ind; [done|].
  rewrite fold_left_app, filter_app. simpl fold_left.
  rewrite filter_cons, filter_nil.
  destruct (decide (f x = k)) as [Hk|Hk].
  - rewrite last_snoc. subst k. apply lookup_insert_eq.
  - rewrite app_nil_r, lookup_insert_ne by done. apply IH.
Qed.

Lemma table_of_dom {A} (f : A -> option string) (g : A -> string)
    (l : list A) (d0 : StringTable) :
  dom (fold_left (fun d e => <[f e := g e]> d) l d0)
  = list_to_set (f <$> l) ∪ dom d0.
Proof.
  induction l as [|x l IH] using rev_ind; [set_solver|].
  rewrite fold_left_app, fmap_app, list_to_set_app_L.
  simpl. rewrite dom_insert_L, IH. set_solver.
Qed.

Lemma table_of_size {A} (f : A -> option string) (g : A -> string) (l : list A) :
  size (fold_left (fun d e => <[f e := g e]> d) l (∅ : StringTable))
  = length (remove_dups (f <$> l)).
Proof.
  rewrite <-size_dom, table_of_dom, dom_empty_L, (right_id_L ∅ (∪)).
  rewrite <-(size_list_to_set (C:=gset (option string)) (remove_dups (f <$> l)))
    by apply NoDup_remove_dups.
  f_equal. apply set_eq. intros k.
  by rewrite !elem_of_list_to_set, elem_of_remove_dups.
Qed.

(** C10: for a well-formed string table file, [parse_strings_xml] returns
    a mapping with one entry per distinct value of the name attribute of the
    top-level string elements (an element without the attribute counts
    under the absent name); the entry of a name holds the text of the last
    element of that name in document order, the empty string when that
    element has no text. *)
Theorem parse_strings_xml_last_wins
    (fromstring : string -> option Element) (xml_text : string) (root : Element) :
  fromstring xml_text = Some root ->
  exists table : StringTable,
    parse_strings_xml fromstring xml_text = Some table
    /\ (forall name : option string,
          table !! name =
            (fun e => PyStr.or_empty (text e))
              <$> last (filter (fun e => get "name" e = name) (findall "string" root)))
    /\ size table = length (remove_dups (get "name" <$> findall "string" root)).
Proof.
  intros Hroot. unfold parse_strings_xml. rewrite Hroot. simpl.
  eexists; split; [done|]. split.
  - intros name. rewrite table_of_lookup.
    destruct (last _); [done|]. apply lookup_empty.
  - apply table_of_size.
Qed.

(** ** The override decision *)

(** The condition of line 171 in the words of the specification. *)
Lemma needs_override_spec (pref_summary : string) :
  needs_override pref_summary
  = bool_decide (pref_summary = EmptyString) || PyStr.contains "%s" pref_summary.
Proof.
  unfold needs_override.
  destruct pref_summary as [|c s]; [done|].
  rewrite bool_decide_eq_false_2 by done.
  cbn [PyStr.truthy negb orb]. apply orb_false_r.
Qed.

Lemma override_summary_run (pref_key : option string)
    (title summary : string) (w : world) :
  override_summary pref_key title summary w =
    match dict_get pref_key (w_replacements w) with
    | Some stored => (Ok stored, w)
    | None =>
        match w_stdin w with
        | [] => (Raise EOFError, asked pref_key title summary [] w)
        | reply :: rest =>
            let w' := asked pref_key title summary rest w in
            if PyStr.truthy (Some (PyStr.strip reply))
            then (Ok (PyStr.strip reply),
                  mkWorld (w_stdin w') (w_stdout w')
                          (dict_set pref_key (PyStr.strip reply) (w_replacements w))
                          (w_replacements_json w') (w_branches w'))
            else (Ok " ", w')
        end
    end.
Proof.
  unfold override_summary, bind, get_replacements.
  destruct (dict_get pref_key (w_replacements w)) as [stored|]; [done|].
  unfold print, input, asked. cbn [w_stdin w_stdout w_replacements
    w_replacements_json w_branches].
  destruct (w_stdin w) as [|reply rest].
  - by rewrite <-(assoc_L (++)).
  - cbn zeta. destruct (PyStr.truthy (Some (PyStr.strip reply)));
      unfold set_replacements, ret; cbn; by rewrite <-(assoc_L (++)).
Qed.

Lemma visit_pref_run (chain : list StringTable)
    (sub_cat_features : odict string string) (pref : Pref) (w : world) :
  visit_pref chain sub_cat_features pref w =
    if needs_override (pref_summary chain pref)
    then
      match override_summary (key pref) (pref_title chain pref)
                             (pref_summary chain pref) w with
      | (Ok replaced, w') =>
          (Ok (dict_set (pref_title chain pref) replaced sub_cat_features), w')
      | (Raise e, w') => (Raise e, w')
      end
    else (Ok (dict_set (pref_title chain pref) (pref_summary chain pref)
                       sub_cat_features), w).
Proof.
  unfold visit_pref. fold (pref_title chain pref) (pref_summary chain pref).
  destruct (needs_override (pref_summary chain pref)); [|done].
  unfold bind. by destruct (override_summary _ _ _ w) as [[?|?] ?].
Qed.

Lemma percent_s_is_placeholder (s : string) :
  PyStr.contains "%s" s = true -> has_placeholder s = true.
Proof.
  induction s as [|c s IH]; [done|].
  cbn [PyStr.contains has_placeholder].
  destruct (PyStr.startswith "%s" (String c s)) eqn:Hs.
  - intros _. apply (startswith_app "%s") in Hs.
    injection Hs as -> ->. by rewrite str_app_cons.
  - intros Hc. rewrite (IH Hc). apply orb_true_r.
Qed.

(** C4, as the code has it: the override path is taken exactly when the
    summary is empty or holds the two characters %s, the sequence line 171
    looks for.  Then the store is looked up and its text is emitted when it
    has the key; else the question is shown and the reply read, which is
    emitted and recorded when it is not empty once stripped, and gives a
    single space when it is (EOFError when the terminal has no line left).
    Any other summary is emitted as it is, whatever the store and the
    terminal hold, and leaves both as they were.  A summary on the
    override path for its %s holds a placeholder; the converse is what
    fails. *)
Theorem override_iff_percent_s (chain : list StringTable)
    (sub_cat_features : odict string string) (pref : Pref) (w : world) :
  let title := pref_title chain pref in
  let summary := pref_summary chain pref in
  visit_pref chain sub_cat_features pref w =
    (if bool_decide (summary = EmptyString) || PyStr.contains "%s" summary
     then
       match dict_get (key pref) (w_replacements w) with
       | Some stored => (Ok (dict_set title stored sub_cat_features), w)
       | None =>
           match w_stdin w with
           | [] => (Raise EOFError, asked (key pref) title summary [] w)
           | reply :: rest =>
               let w' := asked (key pref) title summary rest w in
               if PyStr.truthy (Some (PyStr.strip reply))
               then (Ok (dict_set title (PyStr.strip reply) sub_cat_features),
                     mkWorld (w_stdin w') (w_stdout w')
                             (dict_set (key pref) (PyStr.strip reply)
                                       (w_replacements w))
                             (w_replacements_json w') (w_branches w'))
               else (Ok (dict_set title " " sub_cat_features), w')
           end
       end
     else (Ok (dict_set title summary sub_cat_features), w))
  /\ (PyStr.contains "%s" summary = true -> has_placeholder summary = true).
Proof.
  intros title summary. split; [|apply percent_s_is_placeholder].
  rewrite visit_pref_run. fold title summary. rewrite needs_override_spec.
  destruct (bool_decide (summary = EmptyString) || PyStr.contains "%s" summary);
    [|done].
  rewrite override_summary_run.
  destruct (dict_get (key pref) (w_replacements w)); [done|].
  destruct (w_stdin w) as [|reply rest]; [done|].
  cbv zeta. by destruct (PyStr.truthy (Some (PyStr.strip reply))).
Qed.

(** C4 as the specification words it fails: a summary that holds the
    placeholders %1$s and %d, and so is unresolved, is emitted as it is;
    the store is not looked up, nothing is asked and the reply that waits
    on the terminal is not read. *)
Lemma positional_placeholder_is_emitted :
  let pref := mkPref (Some "timeout") (Some "Timeout")
                     (Some "Keeps %1$s for %d days") in
  let w := mkWorld ["a reply"] [] [(Some "timeout", "Keeps logs")] None [] in
  pref_summary [] pref = "Keeps %1$s for %d days"
  /\ has_placeholder (pref_summary [] pref) = true
  /\ needs_override (pref_summary [] pref) = false
  /\ visit_pref [] [] pref w = (Ok [("Timeout", "Keeps %1$s for %d days")], w).
Proof. repeat split; vm_compute; reflexivity. Qed.


(** ** Insertion-ordered dicts *)

Section ODictFacts.
Context {K V : Type} `{EqDecision K}.
Implicit Types (d : odict K V) (k : K) (v : V).

Lemma dict_keys_set k v d : dict_keys (dict_set k v d) = add_key (dict_keys d) k.
Proof.
  unfold add_key, dict_keys.
  induction d as [|[k' v'] d IH].
  - done.
  - cbn [dict_set]. rewrite fmap_cons. cbn [fst].
    destruct (decide (k = k')) as [->|Hne].
    + rewrite decide_True by apply list_elem_of_here. done.
    + rewrite fmap_cons, IH. cbn [fst].
      destruct (decide (k ∈ d.*1)) as [Hin|Hin].
      * rewrite decide_True by (by apply list_elem_of_further). done.
      * rewrite decide_False; [done|]. rewrite elem_of_cons. tauto.
Qed.

Lemma dict_get_set_eq k v d : dict_get k (dict_set k v d) = Some v.
Proof.
  induction d as [|[k' v'] d IH]; cbn [dict_set dict_get].
  - by rewrite decide_True.
  - destruct (decide (k = k')) as [->|Hne]; cbn [dict_get].
    + by rewrite decide_True.
    + by rewrite decide_False.
Qed.

Lemma dict_get_set_ne k k' v d :
  k <> k' -> dict_get k' (dict_set k v d) = dict_get k' d.
Proof.
  intros Hne. induction d as [|[k0 v0] d IH]; cbn [dict_set dict_get].
  - by rewrite decide_False.
  - destruct (decide (k = k0)) as [->|Hne0]; cbn [dict_get].
    + by rewrite !decide_False.
    + by rewrite IH.
Qed.

Lemma dict_set_fresh k v d :
  k ∉ dict_keys d -> dict_set k v d = d ++ [(k, v)].
Proof.
  unfold dict_keys. induction d as [|[k' v'] d IH]; [done|].
  rewrite fmap_cons, not_elem_of_cons. cbn [fst dict_set]. intros [Hne Hnin].
  rewrite decide_False by done. by rewrite IH.
Qed.

Lemma dict_of_pairs_NoDup (pairs : list (K * V)) :
  NoDup pairs.*1 -> dict_of_pairs pairs = pairs.
Proof.
  unfold dict_of_pairs.
  enough (forall acc : odict K V, NoDup (acc ++ pairs).*1 ->
            fold_left (fun d kv => dict_set kv.1 kv.2 d) pairs acc = acc ++ pairs)
    as Hgen by (intros; by apply (Hgen [])).
  induction pairs as [|[k v] pairs IH]; intros acc Hnd; cbn [fold_left].
  - by rewrite app_nil_r.
  - cbn [fst snd]. rewrite dict_set_fresh.
    + rewrite IH; rewrite <-(assoc_L (++)); done.
    + rewrite fmap_app in Hnd. apply NoDup_app in Hnd as (_ & Hdisj & _).
      intros Hin. apply (Hdisj k Hin). rewrite fmap_cons. apply list_elem_of_here.
Qed.
End ODictFacts.

Section KeepFirst.
Context {K : Type} `{EqDecision K}.

Lemma fold_add_key (l acc : list K) :
  fold_left add_key l acc = acc ++ filter (fun x => x ∉ acc) (keep_first l).
Proof.
  revert acc. induction l as [|k l IH]; intros acc; cbn [fold_left keep_first].
  - by rewrite filter_nil, app_nil_r.
  - rewrite IH. unfold add_key. rewrite filter_cons.
    destruct (decide (k ∈ acc)) as [Hin|Hin].
    + rewrite decide_False by tauto. f_equal.
      rewrite list_filter_filter. apply list_filter_iff.
      intros x. split; [|tauto]. intros Hx. split; [done|]. by intros ->.
    + rewrite decide_True by done. rewrite <-(assoc_L (++)). simpl. do 2 f_equal.
      rewrite list_filter_filter. apply list_filter_iff.
      intros x. rewrite elem_of_app, list_elem_of_singleton. tauto.
Qed.

Lemma filter_not_elem_nil (l : list K) : filter (fun x => x ∉ ([] : list K)) l = l.
Proof.
  induction l as [|x xs IH]; [done|].
  rewrite filter_cons_True by apply not_elem_of_nil. by rewrite IH.
Qed.

Lemma fold_add_key_nil (l : list K) : fold_left add_key l [] = keep_first l.
Proof. rewrite fold_add_key. apply filter_not_elem_nil. Qed.

Lemma filter_ne_fresh (k : K) (l : list K) :
  k ∉ l -> filter (fun x => x <> k) l = l.
Proof.
  induction l as [|x l IH]; [done|].
  rewrite not_elem_of_cons. intros [Hne Hnin].
  rewrite filter_cons_True by done. by rewrite IH.
Qed.

Lemma keep_first_NoDup (l : list K) : NoDup l -> keep_first l = l.
Proof.
  induction 1 as [|k l Hnin Hnd IH]; cbn [keep_first]; [done|].
  by rewrite IH, filter_ne_fresh.
Qed.
End KeepFirst.

(** ** The state monad *)

Lemma bind_ok {A B} (m : M A) (k : A -> M B) (w w1 : world) (a : A) :
  m w = (Ok a, w1) -> bind m k w = k a w1.
Proof. unfold bind. by intros ->. Qed.

Lemma bind_raise {A B} (m : M A) (k : A -> M B) (w w1 : world) (e : exn) :
  m w = (Raise e, w1) -> bind m k w = (Raise e, w1).
Proof. unfold bind. by intros ->. Qed.

Lemma bind_inv_ok {A B} (m : M A) (k : A -> M B) (w w2 : world) (b : B) :
  bind m k w = (Ok b, w2) ->
  exists a w1, m w = (Ok a, w1) /\ k a w1 = (Ok b, w2).
Proof.
  unfold bind. destruct (m w) as [[a|e] w1]; [|done]. intros Hk. by exists a, w1.
Qed.

Lemma foldM_inv_cons {A B} (f : B -> A -> M B) (acc : B) (x : A) (xs : list A)
    (w w2 : world) (out : B) :
  foldM f acc (x :: xs) w = (Ok out, w2) ->
  exists acc1 w1, f acc x w = (Ok acc1, w1) /\ foldM f acc1 xs w1 = (Ok out, w2).
Proof. apply bind_inv_ok. Qed.

(** A fold whose steps add one key each adds the keys in the order of the
    list. *)
Lemma foldM_keys {A B K} `{EqDecision K} (f : B -> A -> M B)
    (keys : B -> list K) (kf : A -> K) :
  (forall acc x w out w', f acc x w = (Ok out, w') ->
                          keys out = add_key (keys acc) (kf x)) ->
  forall l acc w out w',
    foldM f acc l w = (Ok out, w') ->
    keys out = fold_left add_key (map kf l) (keys acc).
Proof.
  intros Hstep l. induction l as [|x l IH]; intros acc w out w' Hrun.
  - by injection Hrun as <- _.
  - apply foldM_inv_cons in Hrun as (acc1 & w1 & Hx & Hl).
    rewrite (IH _ _ _ _ Hl), (Hstep _ _ _ _ _ Hx). done.
Qed.

(** ** Mappings built from pairs *)

Lemma dict_get_None {K V} `{EqDecision K} (k : K) (d : odict K V) :
  k ∉ dict_keys d -> dict_get k d = None.
Proof.
  unfold dict_keys. induction d as [|[k' v'] d IH]; [done|].
  rewrite fmap_cons, not_elem_of_cons. cbn [fst dict_get]. intros [Hne Hnin].
  rewrite decide_False by done. by apply IH.
Qed.

Lemma dict_of_pairs_keys {K V} `{EqDecision K} (pairs : list (K * V)) :
  dict_keys (dict_of_pairs pairs) = keep_first pairs.*1.
Proof.
  unfold dict_of_pairs. rewrite <-fold_add_key_nil.
  change (@nil K) with (dict_keys (@nil (K * V))).
  generalize (@nil (K * V)).
  induction pairs as [|[k v] pairs IH]; intros acc; [done|].
  cbn [fold_left]. rewrite IH, dict_keys_set. done.
Qed.

Lemma dict_of_pairs_get {K V} `{EqDecision K} (pairs : list (K * V)) (k : K) :
  dict_get k (dict_of_pairs pairs)
  = snd <$> last (filter (fun kv => kv.1 = k) pairs).
Proof.
  unfold dict_of_pairs.
  induction pairs as [|[k' v'] pairs IH] using rev_ind; [done|].
  rewrite fold_left_app, filter_app. cbn [fold_left fst snd].
  rewrite filter_cons, filter_nil. cbn [fst].
  destruct (decide (k' = k)) as [->|Hne].
  - by rewrite last_snoc, dict_get_set_eq.
  - by rewrite app_nil_r, dict_get_set_ne.
Qed.

Lemma keep_first_elem_of {K} `{EqDecision K} (l : list K) (x : K) :
  x ∈ keep_first l <-> x ∈ l.
Proof.
  induction l as [|k l IH]; [done|].
  cbn [keep_first]. rewrite !elem_of_cons, list_elem_of_filter, IH.
  destruct (decide (x = k)); tauto.
Qed.

Lemma keep_first_is_NoDup {K} `{EqDecision K} (l : list K) : NoDup (keep_first l).
Proof.
  induction l as [|k l IH]; cbn [keep_first]; [constructor|].
  apply NoDup_cons. split.
  - rewrite list_elem_of_filter. tauto.
  - by apply NoDup_filter.
Qed.

(** ** The store only grows *)

Lemma store_extends_refl (w : world) : store_extends w w.
Proof. by intros k v. Qed.

Lemma store_extends_trans (w1 w2 w3 : world) :
  store_extends w1 w2 -> store_extends w2 w3 -> store_extends w1 w3.
Proof. intros H12 H23 k v Hk. by apply H23, H12. Qed.

Lemma store_extends_same (w w' : world) :
  w_replacements w' = w_replacements w -> store_extends w w'.
Proof. intros Heq k v. by rewrite Heq. Qed.

Lemma grows_store_ret {A} (a : A) : grows_store (ret a).
Proof. intros w. apply store_extends_refl. Qed.

Lemma grows_store_bind {A B} (m : M A) (k : A -> M B) :
  grows_store m -> (forall a, grows_store (k a)) -> grows_store (bind m k).
Proof.
  intros Hm Hk w. unfold bind. specialize (Hm w).
  destruct (m w) as [[a|e] w1]; cbn [snd] in *; [|done].
  eapply store_extends_trans; [done|apply Hk].
Qed.

Lemma grows_store_foldM {A B} (f : B -> A -> M B) (l : list A) :
  (forall acc x, grows_store (f acc x)) -> forall acc, grows_store (foldM f acc l).
Proof.
  intros Hf. induction l as [|x l IH]; intros acc; cbn [foldM].
  - apply grows_store_ret.
  - by apply grows_store_bind.
Qed.

Lemma grows_store_parse_phase {A} (m : M A) : parse_phase m -> grows_store m.
Proof.
  intros Hm w. destruct (Hm w) as [(_ & Hstore & _) _].
  by apply store_extends_same.
Qed.

Lemma grows_store_print (msg : string) : grows_store (print msg).
Proof. intros w. by apply store_extends_same. Qed.

Lemma grows_store_write_branch (filename : string) (tree : list Entry) :
  grows_store (write_branch filename tree).
Proof. intros w. by apply store_extends_same. Qed.

Lemma grows_store_override_summary (pref_key : option string)
    (title summary : string) :
  grows_store (override_summary pref_key title summary).
Proof.
  intros w. rewrite override_summary_run.
  destruct (dict_get pref_key (w_replacements w)) eqn:Hkey;
    [apply store_extends_refl|].
  destruct (w_stdin w) as [|reply rest]; [by apply store_extends_same|].
  cbv zeta. destruct (PyStr.truthy _); [|by apply store_extends_same].
  intros k v Hk. cbn [snd w_replacements].
  rewrite dict_get_set_ne; [done|]. intros <-. congruence.
Qed.

Lemma grows_store_visit_pref (chain : list StringTable)
    (acc : odict string string) (pref : Pref) :
  grows_store (visit_pref chain acc pref).
Proof.
  unfold visit_pref. apply grows_store_bind; [|intros; apply grows_store_ret].
  destruct (needs_override _);
    [apply grows_store_override_summary|apply grows_store_ret].
Qed.

Lemma grows_store_visit_main_cat (chain : list StringTable)
    (acc : list Entry) (main_cat : MainCat) :
  grows_store (visit_main_cat chain acc main_cat).
Proof.
  unfold visit_main_cat. apply grows_store_bind; [|intros; apply grows_store_ret].
  apply grows_store_foldM. intros acc0 sc. unfold visit_sub_cat.
  apply grows_store_bind; [|intros; apply grows_store_ret].
  apply grows_store_foldM. intros; apply grows_store_visit_pref.
Qed.

(** ** Order of the output *)

Lemma visit_pref_keys (chain : list StringTable) (acc out : odict string string)
    (pref : Pref) (w w' : world) :
  visit_pref chain acc pref w = (Ok out, w') ->
  dict_keys out = add_key (dict_keys acc) (pref_title chain pref).
Proof.
  rewrite visit_pref_run.
  destruct (needs_override _); [destruct (override_summary _ _ _ w) as [[?|?] ?]|];
    intros [= <- _]; apply dict_keys_set.
Qed.

Lemma visit_prefs_keys (chain : list StringTable) (prefs : list Pref)
    (out : odict string string) (w w' : world) :
  foldM (visit_pref chain) [] prefs w = (Ok out, w') ->
  dict_keys out = keep_first (map (pref_title chain) prefs).
Proof.
  intros Hrun.
  rewrite (foldM_keys _ dict_keys (pref_title chain)
             (fun acc x w out w' => visit_pref_keys chain acc out x w w')
             _ _ _ _ _ Hrun).
  apply fold_add_key_nil.
Qed.

Lemma visit_sub_cat_keys (chain : list StringTable) (acc out : odict string pyval)
    (sub_cat : Category) (w w' : world) :
  visit_sub_cat chain acc sub_cat w = (Ok out, w') ->
  dict_keys out = add_key (dict_keys acc) (sub_cat_title chain sub_cat).
Proof.
  unfold visit_sub_cat. intros Hrun.
  apply bind_inv_ok in Hrun as (features & w1 & _ & [= <- _]).
  apply dict_keys_set.
Qed.

Lemma visit_sub_cat_features (chain : list StringTable) (acc out : odict string pyval)
    (sub_cat : Category) (subs : list Category) (w w' : world) :
  features_of chain subs acc ->
  visit_sub_cat chain acc sub_cat w = (Ok out, w') ->
  features_of chain (subs ++ [sub_cat]) out.
Proof.
  unfold visit_sub_cat. intros Hacc Hrun.
  apply bind_inv_ok in Hrun as (features & w1 & Hprefs & [= <- _]).
  intros t features' Hget.
  destruct (decide (sub_cat_title chain sub_cat = t)) as [<-|Hne].
  - fold (sub_cat_title chain sub_cat) in Hget.
    rewrite dict_get_set_eq in Hget. injection Hget as <-.
    exists sub_cat. rewrite elem_of_app, list_elem_of_singleton.
    split; [by right|]. split; [done|]. by eapply visit_prefs_keys.
  - fold (sub_cat_title chain sub_cat) in Hget.
    rewrite dict_get_set_ne in Hget by done.
    destruct (Hacc _ _ Hget) as (sc & Hin & Ht & Hk).
    exists sc. rewrite elem_of_app. auto.
Qed.

Lemma visit_sub_cats_features (chain : list StringTable) (todo : list Category) :
  forall (done_ : list Category) (acc out : odict string pyval) (w w' : world),
    features_of chain done_ acc ->
    foldM (visit_sub_cat chain) acc todo w = (Ok out, w') ->
    features_of chain (done_ ++ todo) out.
Proof.
  induction todo as [|sc todo IH]; intros done_ acc out w w' Hacc Hrun.
  - injection Hrun as <- _. by rewrite app_nil_r.
  - apply foldM_inv_cons in Hrun as (acc1 & w1 & Hsc & Hrest).
    rewrite (assoc_L (++) done_ [sc] todo : done_ ++ sc :: todo = _).
    eapply IH; [|done]. by eapply visit_sub_cat_features.
Qed.

Lemma visit_main_cat_entry (chain : list StringTable) (acc out : list Entry)
    (main_cat : MainCat) (w w' : world) :
  visit_main_cat chain acc main_cat w = (Ok out, w') ->
  exists cat_entry,
    out = acc ++ [(mc_title main_cat, cat_entry)]
    /\ entry_of chain (mc_title main_cat, cat_entry) main_cat.
Proof.
  unfold visit_main_cat. intros Hrun.
  apply bind_inv_ok in Hrun as (cat_entry & w1 & Hsubs & [= <- _]).
  exists cat_entry. split; [done|]. split; [done|]. split.
  - cbn [snd].
    rewrite (foldM_keys _ dict_keys (sub_cat_title chain)
               (fun acc x w out w' => visit_sub_cat_keys chain acc out x w w')
               _ _ _ _ _ Hsubs).
    by rewrite <-fold_add_key_nil.
  - apply (visit_sub_cats_features chain _ [] _ _ _ _) in Hsubs; [done|].
    intros t features Hget. cbn [dict_get] in Hget.
    by destruct (decide (t = "summary")).
Qed.

Lemma visit_main_cats_entries (chain : list StringTable) (cats : list MainCat) :
  forall (acc out : list Entry) (w w' : world),
    foldM (visit_main_cat chain) acc cats w = (Ok out, w') ->
    exists new, out = acc ++ new /\ Forall2 (entry_of chain) new cats.
Proof.
  induction cats as [|c cats IH]; intros acc out w w' Hrun.
  - injection Hrun as <- _. exists []. by rewrite app_nil_r.
  - apply foldM_inv_cons in Hrun as (acc1 & w1 & Hc & Hrest).
    apply visit_main_cat_entry in Hc as (cat_entry & -> & Hentry).
    apply IH in Hrest as (new & -> & Hall).
    exists ((mc_title c, cat_entry) :: new). rewrite <-(assoc_L (++)).
    split; [done|]. by constructor.
Qed.

(** ** The top-level listing *)

Section Loading.
Variable fromstring : string -> option Element.
Variable requests_get : string -> string -> string + string.
Variables (branch token : string) (chain : list StringTable).

Local Abbreviation load := (load_main_cat fromstring requests_get branch token chain).

Lemma bind_ext {A B} (m : M A) (k1 k2 : A -> M B) (w : world) :
  (forall a w1, k1 a w1 = k2 a w1) -> bind m k1 w = bind m k2 w.
Proof. intros Hk. unfold bind. destruct (m w) as [[a|e] w1]; [apply Hk|done]. Qed.

Lemma not_not_about (p : Pref) : ~ not_about p -> key p = Some "about".
Proof. unfold not_about. by destruct (decide (key p = Some "about")). Qed.

Lemma load_main_cat_about (acc : list MainCat) (p : Pref) (w : world) :
  key p = Some "about" -> load acc p w = (Ok acc, w).
Proof. intros Hk. unfold load_main_cat. by rewrite decide_True. Qed.

Lemma load_main_cat_other (acc out : list MainCat) (p : Pref) (w w' : world) :
  not_about p ->
  load acc p w = (Ok out, w') ->
  exists subs,
    out = acc ++ [mkMainCat (key p) (pref_title chain p) (pref_summary chain p) subs].
Proof.
  intros Hk. unfold load_main_cat. rewrite decide_False by done.
  intros Hrun.
  apply bind_inv_ok in Hrun as (content & w1 & _ & Hrun).
  apply bind_inv_ok in Hrun as (subs & w2 & _ & [= <- _]).
  by exists subs.
Qed.

Lemma load_main_cats_about (prefs : list Pref) :
  forall (acc : list MainCat) (w : world),
    foldM load acc prefs w = foldM load acc (filter not_about prefs) w.
Proof.
  induction prefs as [|p prefs IH]; intros acc w; [done|].
  rewrite filter_cons. destruct (decide (not_about p)) as [Hp|Hp].
  - cbn [foldM]. apply bind_ext. intros; apply IH.
  - cbn [foldM].
    rewrite (bind_ok _ _ _ _ _ (load_main_cat_about acc p w (not_not_about p Hp))).
    apply IH.
Qed.

Lemma load_main_cats_cats (prefs : list Pref) :
  forall (acc out : list MainCat) (w w' : world),
    foldM load acc prefs w = (Ok out, w') ->
    exists new, out = acc ++ new
                /\ Forall2 (cat_of chain) new (filter not_about prefs).
Proof.
  induction prefs as [|p prefs IH]; intros acc out w w' Hrun.
  - injection Hrun as <- _. exists []. by rewrite app_nil_r.
  - rewrite filter_cons. destruct (decide (not_about p)) as [Hp|Hp].
    + apply foldM_inv_cons in Hrun as (acc1 & w1 & Hc & Hrest).
      apply load_main_cat_other in Hc as (subs & ->); [|done].
      apply IH in Hrest as (new & -> & Hall).
      eexists (_ :: new). rewrite <-(assoc_L (++)). split; [done|].
      by constructor.
    + cbn [foldM] in Hrun.
      rewrite (bind_ok _ _ _ _ _ (load_main_cat_about acc p w (not_not_about p Hp)))
        in Hrun.
      by apply IH in Hrun.
Qed.
End Loading.

Lemma scrape_preferences_about
    (fromstring : string -> option Element)
    (requests_get : string -> string -> string + string)
    (branch token : string) (main_preferences : list Pref) (w : world) :
  scrape_preferences fromstring requests_get branch token main_preferences w
  = scrape_preferences fromstring requests_get branch token
      (filter not_about main_preferences) w.
Proof.
  unfold scrape_preferences.
  apply bind_ext; intros strings_dict w1.
  apply bind_ext; intros fallback_strings w2.
  cbv zeta. unfold bind. by rewrite load_main_cats_about.
Qed.

(** The tree a successful run leaves under branches/. *)
Lemma scrape_preferences_tree
    (fromstring : string -> option Element)
    (requests_get : string -> string -> string + string)
    (branch token : string) (main_preferences : list Pref) (w w' : world) :
  scrape_preferences fromstring requests_get branch token main_preferences w
  = (Ok tt, w') ->
  exists (chain : list StringTable) (cats : list MainCat) (tree : list Entry),
    dict_get (os_path_join "branches" (branch +:+ ".json")) (w_branches w') = Some tree
    /\ Forall2 (cat_of chain) cats (filter not_about main_preferences)
    /\ Forall2 (entry_of chain) tree cats.
Proof.
  unfold scrape_preferences. intros Hrun.
  apply bind_inv_ok in Hrun as (strings_dict & w1 & _ & Hrun).
  apply bind_inv_ok in Hrun as (fallback_strings & w2 & _ & Hrun).
  apply bind_inv_ok in Hrun as (cats & w3 & Hcats & Hrun).
  apply bind_inv_ok in Hrun as (tree & w4 & Htree & Hrun).
  apply bind_inv_ok in Hrun as ([] & w5 & Hwrite & Hprint).
  apply load_main_cats_cats in Hcats as (cats' & -> & Hcats).
  apply visit_main_cats_entries in Htree as (tree' & -> & Htree).
  exists (strings_dict :: fallback_strings), cats', tree'.
  split; [|done].
  injection Hwrite as <-. injection Hprint as <-. cbn.
  apply dict_get_set_eq.
Qed.

(** ** The about entry *)

Lemma cat_of_not_about (chain : list StringTable) (cats : list MainCat)
    (prefs : list Pref) :
  Forall2 (cat_of chain) cats (filter not_about prefs) ->
  Forall (fun c => mc_key c <> Some "about") cats.
Proof.
  intros Hall. apply Forall_forall. intros c Hc.
  apply list_elem_of_lookup in Hc as [i Hi].
  destruct (Forall2_lookup_l _ _ _ _ _ Hall Hi) as (p & Hp & Hcat & _).
  apply list_elem_of_lookup_2, list_elem_of_filter in Hp as [Hp _].
  by rewrite Hcat.
Qed.

(** C6: the descriptors of the listing whose key is about leave no trace:
    the run over a listing is the run over the listing without them,
    wherever they stand, and the tree a run writes has one entry per
    remaining descriptor, none of whose categories has the key about. *)
Theorem about_never_emitted
    (fromstring : string -> option Element)
    (requests_get : string -> string -> string + string)
    (branch token : string) (main_preferences : list Pref) (w : world) :
  scrape_preferences fromstring requests_get branch token main_preferences w
  = scrape_preferences fromstring requests_get branch token
      (filter not_about main_preferences) w
  /\ forall w',
       scrape_preferences fromstring requests_get branch token main_preferences w
       = (Ok tt, w') ->
       exists (chain : list StringTable) (cats : list MainCat) (tree : list Entry),
         dict_get (os_path_join "branches" (branch +:+ ".json")) (w_branches w')
         = Some tree
         /\ Forall2 (entry_of chain) tree cats
         /\ Forall2 (cat_of chain) cats (filter not_about main_preferences)
         /\ Forall (fun c => mc_key c <> Some "about") cats.
Proof.
  split; [apply scrape_preferences_about|].
  intros w' Hrun.
  apply scrape_preferences_tree in Hrun as (chain & cats & tree & Htree & Hcats & Hent).
  exists chain, cats, tree. eauto using cat_of_not_about.
Qed.

Lemma about_never_emitted_witness :
  exists (chain : list StringTable) (cats : list MainCat) (tree : list Entry),
    dict_get "branches/main.json"
      (w_branches (scrape_preferences Demo.fromstring Demo.requests_get "main" "t"
                     (main_preferences_of Demo.listing_root)
                     (Demo.world0 ["Adjust screen brightness"])).2)
    = Some tree
    /\ Forall2 (entry_of chain) tree cats
    /\ Forall2 (cat_of chain) cats
         (filter not_about (main_preferences_of Demo.listing_root))
    /\ Forall (fun c => mc_key c <> Some "about") cats.
Proof.
  apply (proj2 (about_never_emitted Demo.fromstring Demo.requests_get "main" "t"
                  (main_preferences_of Demo.listing_root)
                  (Demo.world0 ["Adjust screen brightness"]))).
  vm_compute. reflexivity.
Defined.

(** ** Order of the emitted entries *)


(** *** What the files say and what a run reads *)

Section Document.
Variable fromstring : string -> option Element.
Variable requests_get : string -> string -> string + string.
Variables (branch token : string).






End Document.

(** *** What a visit emits *)













(** *** What a mapping built in document order looks like *)








(** ** Parse errors *)

Lemma printed_only_refl (w : world) : printed_only w w.
Proof. by repeat split. Qed.

Lemma printed_only_trans (w1 w2 w3 : world) :
  printed_only w1 w2 -> printed_only w2 w3 -> printed_only w1 w3.
Proof.
  intros (? & ? & ? & ?) (? & ? & ? & ?). repeat split; congruence.
Qed.

Create HintDb phase discriminated.

Lemma parse_phase_ret {A} (a : A) : parse_phase (ret a).
Proof. intros w. split; [apply printed_only_refl|done]. Qed.

Lemma parse_phase_print (msg : string) : parse_phase (print msg).
Proof. intros w. split; [by repeat split|done]. Qed.

Lemma parse_phase_print_error (msg : string) : parse_phase (print_error msg).
Proof. apply parse_phase_print. Qed.

Lemma parse_phase_lift_parse {A} (x : option A) : parse_phase (lift_parse x).
Proof.
  intros w. destruct x; (split; [apply printed_only_refl|]); [done|].
  by intros e [= <-].
Qed.

Lemma parse_phase_bind {A B} (m : M A) (k : A -> M B) :
  parse_phase m -> (forall a, parse_phase (k a)) -> parse_phase (bind m k).
Proof.
  intros Hm Hk w. unfold bind. destruct (Hm w) as [Hw He].
  destruct (m w) as [[a|e] w1]; cbn [fst snd] in *.
  - destruct (Hk a w1) as [Hw1 He1]. split; [|done].
    by eapply printed_only_trans.
  - split; [done|]. intros e0 [= <-]. by apply He.
Qed.

Lemma parse_phase_foldM {A B} (f : B -> A -> M B) (l : list A) :
  (forall acc x, parse_phase (f acc x)) -> forall acc, parse_phase (foldM f acc l).
Proof.
  intros Hf. induction l as [|x l IH]; intros acc; cbn [foldM].
  - apply parse_phase_ret.
  - by apply parse_phase_bind.
Qed.

#[global] Hint Resolve parse_phase_ret parse_phase_print parse_phase_print_error
  parse_phase_lift_parse parse_phase_bind parse_phase_foldM : phase.

Lemma always_parse_error_bind_l {A B} (m : M A) (k : A -> M B) :
  always_parse_error m -> always_parse_error (bind m k).
Proof.
  intros Hm w. destruct (Hm w) as (w' & Hrun & Hw).
  exists w'. by rewrite (bind_raise _ _ _ _ _ Hrun).
Qed.

Lemma always_parse_error_bind_r {A B} (m : M A) (k : A -> M B) :
  parse_phase m -> (forall a, always_parse_error (k a)) ->
  always_parse_error (bind m k).
Proof.
  intros Hm Hk w. unfold bind. destruct (Hm w) as [Hw He].
  destruct (m w) as [[a|e] w1]; cbn [fst snd] in *.
  - destruct (Hk a w1) as (w' & Hrun & Hw1).
    exists w'. split; [done|]. by eapply printed_only_trans.
  - rewrite (He e eq_refl). by exists w1.
Qed.

Lemma always_parse_error_foldM {A B} (f : B -> A -> M B) (l : list A) (x0 : A) :
  (forall acc x, parse_phase (f acc x)) ->
  x0 ∈ l ->
  (forall acc, always_parse_error (f acc x0)) ->
  forall acc, always_parse_error (foldM f acc l).
Proof.
  intros Hf Hin Hbad. induction Hin as [x0 l|x0 y l Hin IH]; intros acc; cbn [foldM].
  - by apply always_parse_error_bind_l.
  - apply always_parse_error_bind_r; [apply Hf|apply IH; done].
Qed.

Section ParseErrors.
Variable fromstring : string -> option Element.
Variable requests_get : string -> string -> string + string.
Variables (branch token : string).

Local Abbreviation fetch := (fetch_file_content requests_get branch).

Lemma parse_phase_fetch (filepath repo : string) :
  parse_phase (fetch filepath token repo).
Proof.
  unfold fetch_file_content. destruct (requests_get _ _); auto with phase.
Qed.

Lemma fetch_ok (filepath repo content : string) (w : world) :
  requests_get (raw_url repo branch filepath) token = inr content ->
  fetch filepath token repo w = (Ok (Some content), w).
Proof. unfold fetch_file_content. by intros ->. Qed.

Lemma parse_phase_load_strings_dict :
  parse_phase (load_strings_dict fromstring requests_get branch token).
Proof.
  unfold load_strings_dict. apply parse_phase_bind; [apply parse_phase_fetch|].
  intros content. destruct (PyStr.truthy content); auto with phase.
Qed.

Lemma parse_phase_load_fallback (acc : list StringTable) (file : string * string) :
  parse_phase (load_fallback fromstring requests_get branch token acc file).
Proof.
  unfold load_fallback. destruct file as [repo_name file_path].
  apply parse_phase_bind; [apply parse_phase_fetch|].
  intros content. destruct (PyStr.truthy content); auto with phase.
Qed.

Lemma parse_phase_load_main_cat (chain : list StringTable) (acc : list MainCat)
    (main_pref : Pref) :
  parse_phase (load_main_cat fromstring requests_get branch token chain acc main_pref).
Proof.
  unfold load_main_cat. destruct (decide _); [auto with phase|].
  apply parse_phase_bind; [apply parse_phase_fetch|].
  intros content. apply parse_phase_bind; [|auto with phase].
  destruct (PyStr.truthy content); auto with phase.
Qed.

Lemma always_parse_error_raise {A} : always_parse_error (@raise A ParseError).
Proof. intros w. exists w. split; [done|apply printed_only_refl]. Qed.

Lemma scrape_preferences_parse_error (main_preferences : list Pref) :
  malformed_file fromstring requests_get branch token main_preferences ->
  always_parse_error
    (scrape_preferences fromstring requests_get branch token main_preferences).
Proof.
  intros Hbad. unfold scrape_preferences.
  destruct Hbad as [content Hget Htruthy Hparse
                   |repo_name file_path content Hin Hget Htruthy Hparse
                   |main_pref content Hin Hnot Hget Htruthy Hparse].
  - apply always_parse_error_bind_l. unfold load_strings_dict.
    intros w. unfold bind. rewrite (fetch_ok _ _ _ _ Hget), Htruthy.
    unfold parse_strings_xml. cbn [PyStr.or_empty]. rewrite Hparse.
    apply always_parse_error_raise.
  - apply always_parse_error_bind_r; [apply parse_phase_load_strings_dict|].
    intros strings_dict. apply always_parse_error_bind_l.
    eapply always_parse_error_foldM;
      [intros; apply parse_phase_load_fallback|apply Hin|].
    intros acc w. unfold load_fallback, bind.
    rewrite (fetch_ok _ _ _ _ Hget), Htruthy.
    unfold parse_strings_xml. cbn [PyStr.or_empty]. rewrite Hparse.
    apply always_parse_error_raise.
  - apply always_parse_error_bind_r; [apply parse_phase_load_strings_dict|].
    intros strings_dict.
    apply always_parse_error_bind_r;
      [apply parse_phase_foldM; intros; apply parse_phase_load_fallback|].
    intros fallback_strings. cbv zeta. apply always_parse_error_bind_l.
    eapply always_parse_error_foldM;
      [intros; apply parse_phase_load_main_cat|apply Hin|].
    intros acc w. unfold load_main_cat. rewrite decide_False by done.
    unfold bind. rewrite (fetch_ok _ _ _ _ Hget), Htruthy.
    unfold parse_preference_fragment_xml. cbn [PyStr.or_empty]. rewrite Hparse.
    apply always_parse_error_raise.
Qed.

Lemma scrape_features_parse_error (main_preferences : list Pref) (w : world) :
  listing_is fromstring requests_get branch token main_preferences ->
  malformed_file fromstring requests_get branch token main_preferences ->
  exists w',
    scrape_features fromstring requests_get branch token w = (Raise ParseError, w')
    /\ w_stdin w' = w_stdin w
    /\ w_replacements w' = w_replacements w
    /\ w_replacements_json w' = w_replacements_json w
    /\ w_branches w' = w_branches w.
Proof.
  intros (content & root & Hget & Htruthy & Hroot & Hprefs & Hne) Hbad.
  unfold scrape_features.
  unfold bind at 1. cbn [print fst snd].
  unfold bind at 1. rewrite (fetch_ok _ _ _ _ Hget), Htruthy. cbn [negb].
  unfold bind at 1. cbn [PyStr.or_empty]. rewrite Hroot. cbn [lift_parse ret].
  rewrite Hprefs. destruct main_preferences as [|p ps]; [done|].
  destruct (scrape_preferences_parse_error _ Hbad
              (mkWorld (w_stdin w) (w_stdout w ++ ["Scraping " +:+ branch])
                       (w_replacements w) (w_replacements_json w) (w_branches w)))
    as (w' & Hrun & Hw).
  exists w'. split; [done|]. apply Hw.
Qed.
End ParseErrors.

(** ** What leaves replacements.json alone *)

Create HintDb frame discriminated.

Lemma keeps_json_ret {A} (a : A) : keeps_json (ret a).
Proof. done. Qed.

Lemma keeps_json_raise {A} (e : exn) : keeps_json (@raise A e).
Proof. done. Qed.

Lemma keeps_json_bind {A B} (m : M A) (k : A -> M B) :
  keeps_json m -> (forall a, keeps_json (k a)) -> keeps_json (bind m k).
Proof.
  intros Hm Hk w. unfold bind. specialize (Hm w).
  destruct (m w) as [[a|e] w1]; cbn [snd] in *; [|done].
  by rewrite Hk.
Qed.

Lemma keeps_json_foldM {A B} (f : B -> A -> M B) (l : list A) :
  (forall acc x, keeps_json (f acc x)) -> forall acc, keeps_json (foldM f acc l).
Proof.
  intros Hf. induction l as [|x l IH]; intros acc; cbn [foldM].
  - apply keeps_json_ret.
  - by apply keeps_json_bind.
Qed.

Lemma keeps_json_print (msg : string) : keeps_json (print msg).
Proof. done. Qed.

Lemma keeps_json_print_error (msg : string) : keeps_json (print_error msg).
Proof. done. Qed.

Lemma keeps_json_input (prompt : string) : keeps_json (input prompt).
Proof. intros w. unfold input. by destruct (w_stdin w). Qed.

Lemma keeps_json_get_replacements : keeps_json get_replacements.
Proof. done. Qed.

Lemma keeps_json_set_replacements (r : Store) : keeps_json (set_replacements r).
Proof. done. Qed.

Lemma keeps_json_write_branch (filename : string) (tree : list Entry) :
  keeps_json (write_branch filename tree).
Proof. done. Qed.

Lemma keeps_json_read : keeps_json read_replacements_json.
Proof. done. Qed.

Lemma keeps_json_parse_phase {A} (m : M A) : parse_phase m -> keeps_json m.
Proof. intros Hm w. by destruct (Hm w) as [(_ & _ & ? & _) _]. Qed.

#[global] Hint Resolve keeps_json_ret keeps_json_raise keeps_json_bind
  keeps_json_foldM keeps_json_print keeps_json_print_error keeps_json_input
  keeps_json_get_replacements keeps_json_set_replacements keeps_json_write_branch
  keeps_json_read : frame.

Ltac frame_step :=
  first [ apply keeps_json_bind; [|intros ?]
        | apply keeps_json_foldM; intros ? ?
        | progress auto with frame ].

Lemma keeps_json_override_summary (pref_key : option string) (title summary : string) :
  keeps_json (override_summary pref_key title summary).
Proof.
  unfold override_summary. frame_step; [auto with frame|].
  destruct (dict_get _ _); [auto with frame|].
  repeat frame_step. destruct (PyStr.truthy _); repeat frame_step.
Qed.

Lemma keeps_json_visit_pref (chain : list StringTable)
    (acc : odict string string) (pref : Pref) :
  keeps_json (visit_pref chain acc pref).
Proof.
  unfold visit_pref. frame_step; [|auto with frame].
  destruct (needs_override _); [apply keeps_json_override_summary|auto with frame].
Qed.

Lemma keeps_json_visit_sub_cat (chain : list StringTable)
    (acc : odict string pyval) (sub_cat : Category) :
  keeps_json (visit_sub_cat chain acc sub_cat).
Proof.
  unfold visit_sub_cat. frame_step; [|auto with frame].
  apply keeps_json_foldM. intros; apply keeps_json_visit_pref.
Qed.

Lemma keeps_json_visit_main_cat (chain : list StringTable)
    (acc : list Entry) (main_cat : MainCat) :
  keeps_json (visit_main_cat chain acc main_cat).
Proof.
  unfold visit_main_cat. frame_step; [|auto with frame].
  apply keeps_json_foldM. intros; apply keeps_json_visit_sub_cat.
Qed.

Section RunFrame.
Variable fromstring : string -> option Element.
Variable requests_get : string -> string -> string + string.
Variable json_error : string -> string.

Lemma keeps_json_scrape_preferences (branch token : string) (prefs : list Pref) :
  keeps_json (scrape_preferences fromstring requests_get branch token prefs).
Proof.
  unfold scrape_preferences.
  frame_step; [apply keeps_json_parse_phase, parse_phase_load_strings_dict|].
  frame_step.
  { apply keeps_json_foldM. intros.
    apply keeps_json_parse_phase, parse_phase_load_fallback. }
  cbv zeta. frame_step.
  { apply keeps_json_foldM. intros.
    apply keeps_json_parse_phase, parse_phase_load_main_cat. }
  frame_step.
  { apply keeps_json_foldM. intros. apply keeps_json_visit_main_cat. }
  repeat frame_step.
Qed.

Lemma keeps_json_scrape_features (branch token : string) :
  keeps_json (scrape_features fromstring requests_get branch token).
Proof.
  unfold scrape_features. frame_step; [auto with frame|].
  frame_step; [apply keeps_json_parse_phase, parse_phase_fetch|].
  destruct (negb _); [auto with frame|].
  frame_step; [apply keeps_json_parse_phase, parse_phase_lift_parse|].
  destruct (main_preferences_of _); [auto with frame|].
  apply keeps_json_scrape_preferences.
Qed.

Lemma keeps_json_load_replacements : keeps_json (load_replacements json_error).
Proof.
  unfold load_replacements. frame_step; [auto with frame|].
  destruct a as [content_text|]; [|auto with frame].
  destruct (Json.loads content_text); repeat frame_step.
Qed.

(** A run over branches one of which always ends with an exception ends
    with an exception, replacements.json untouched. *)
Lemma branches_raise (github_token : string) (branches : list string)
    (branch : string) :
  branch ∈ branches ->
  (forall w, exists e w',
      scrape_features fromstring requests_get branch github_token w = (Raise e, w')) ->
  forall w, exists e w',
    foldM (fun _ branch =>
             scrape_features fromstring requests_get branch github_token)
          tt branches w = (Raise e, w')
    /\ w_replacements_json w' = w_replacements_json w.
Proof.
  intros Hin Hbad. induction Hin as [b l|b y l Hin IH]; intros w; cbn [foldM].
  - destruct (Hbad w) as (e & w' & Hrun).
    exists e, w'. rewrite (bind_raise _ _ _ _ _ Hrun). split; [done|].
    by rewrite <-(keeps_json_scrape_features b github_token w), Hrun.
  - unfold bind.
    pose proof (keeps_json_scrape_features y github_token w) as Hy.
    destruct (scrape_features fromstring requests_get y github_token w)
      as [[[]|e] w1]; cbn [snd] in Hy.
    + destruct (IH Hbad w1) as (e & w' & Hrun & Hjson).
      exists e, w'. split; [done|]. congruence.
    + by exists e, w1.
Qed.

Lemma main_raises (github_token : string) (branches : list string)
    (branch : string) (w : world) :
  branch ∈ branches ->
  (forall w, exists e w',
      scrape_features fromstring requests_get branch github_token w = (Raise e, w')) ->
  exists e w',
    main fromstring requests_get json_error github_token branches w = (Raise e, w')
    /\ w_replacements_json w' = w_replacements_json w.
Proof.
  intros Hin Hbad. unfold main.
  pose proof (keeps_json_load_replacements w) as Hload.
  unfold bind at 1.
  destruct (load_replacements json_error w) as [[r|e] w1] eqn:Hl; cbn [snd] in Hload.
  - unfold bind at 1. cbn [set_replacements].
    set (w2 := mkWorld _ _ _ _ _).
    destruct (branches_raise github_token branches branch Hin Hbad w2)
      as (e & w' & Hrun & Hjson).
    exists e, w'. rewrite (bind_raise _ _ _ _ _ Hrun). split; [done|].
    by rewrite Hjson.
  - by exists e, w1.
Qed.
End RunFrame.

(** ** The replacement store *)

Module JsonFacts.
Import Json.

(** The decoder undoes the escape of one character. *)
Lemma scanstring_escape_char (c : ascii) (rest : string) :
  scanstring (escape_char c +:+ rest) = push (String c EmptyString) (scanstring rest).
Proof. destruct c as [[] [] [] [] [] [] [] []]; reflexivity. Qed.

Lemma scanstring_escape (s rest : string) :
  scanstring (escape s +:+ String dq rest) = Some (s, rest).
Proof.
  induction s as [|c s IH]; [done|].
  cbn [escape]. rewrite str_app_assoc, scanstring_escape_char, IH. done.
Qed.

Ltac norm_app :=
  unfold NL, newline_indent;
  repeat first [rewrite str_app_cons | rewrite str_app_assoc | rewrite str_app_nil_l].

Lemma dump_items_members (kv : option string * string)
    (rest : list (option string * string)) (final : string) :
  dump_items (kv :: rest) +:+ NL +:+ "}" +:+ final
  = String dq (members_text kv rest final).
Proof.
  revert kv. induction rest as [|kv' rest IH]; intros kv.
  - cbn [dump_items members_text]. unfold dump_item, encode_basestring.
    by norm_app.
  - change (dump_items (kv :: kv' :: rest))
      with (dump_item kv +:+ "," +:+ newline_indent +:+ dump_items (kv' :: rest)).
    cbn [members_text]. rewrite <-IH. unfold dump_item, encode_basestring.
    by norm_app.
Qed.

Lemma skip_ws_ws (c : ascii) (s : string) :
  is_ws c = true -> skip_ws (String c s) = skip_ws s.
Proof. cbn [skip_ws]. by intros ->. Qed.

Lemma skip_ws_stop (c : ascii) (s : string) :
  is_ws c = false -> skip_ws (String c s) = String c s.
Proof. cbn [skip_ws]. by intros ->. Qed.

Ltac scan :=
  repeat first
    [ rewrite scanstring_escape
    | rewrite skip_ws_ws by reflexivity
    | rewrite skip_ws_stop by reflexivity
    | rewrite Ascii.eqb_refl
    | progress change (Ascii.eqb "," "}") with false
    | progress cbn [mbind option_bind]
    | progress cbv iota beta ].

Lemma parse_members_text (rest : list (option string * string)) :
  forall (kv : option string * string) (pairs : list (string * string))
         (final : string) (fuel : nat),
    length rest < fuel ->
    parse_members fuel (members_text kv rest final) pairs
    = Some (pairs ++ map (fun kv => (json_key kv.1, kv.2)) (kv :: rest), final).
Proof.
  induction rest as [|kv' rest IH]; intros kv pairs final [|fuel] Hfuel;
    try (cbn in Hfuel; lia).
  - cbn [parse_members members_text]. scan. done.
  - cbn [parse_members members_text]. scan.
    rewrite IH by (cbn in Hfuel; lia).
    cbn [map]. by rewrite <-(assoc_L (++)).
Qed.

Lemma str_length_app (s1 s2 : string) :
  String.length (s1 +:+ s2) = String.length s1 + String.length s2.
Proof.
  induction s1 as [|c s1 IH]; [done|].
  rewrite str_app_cons. cbn [String.length]. by rewrite IH.
Qed.

Lemma members_text_length (rest : list (option string * string)) :
  forall kv final, length rest < String.length (members_text kv rest final).
Proof.
  induction rest as [|kv' rest IH]; intros kv final; cbn [members_text];
    rewrite str_length_app; cbn [String.length length].
  - lia.
  - rewrite str_length_app. cbn [String.length]. specialize (IH kv' final). lia.
Qed.

(** What [loads] reads back from what [dumps] wrote. *)
Lemma loads_dumps (d : odict (option string) string) :
  loads (dumps d +:+ NL)
  = Some (dict_of_pairs
            (map (fun kv => (Some kv.1, kv.2))
                 (map (fun kv => (json_key kv.1, kv.2)) d))).
Proof.
  destruct d as [|kv rest]; [done|].
  unfold dumps. rewrite !str_app_assoc.
  change (newline_indent +:+ dump_items (kv :: rest) +:+ NL +:+ "}" +:+ NL)
    with (String "010" (String " " (String " " (String " " (String " "
            (dump_items (kv :: rest) +:+ NL +:+ "}" +:+ NL)))))).
  rewrite dump_items_members.
  unfold loads, parse_object. rewrite str_app_cons, str_app_nil_l. scan.
  rewrite parse_members_text by apply members_text_length.
  scan. done.
Qed.
End JsonFacts.

Lemma store_of_keys (m : odict string string) :
  (store_of m).*1 = Some <$> dict_keys m.
Proof.
  unfold store_of, dict_keys. induction m as [|[k v] m IH]; [done|].
  cbn. by rewrite <-IH.
Qed.

Lemma store_of_read_back (m : odict string string) :
  map (fun kv : string * string => (Some kv.1, kv.2))
      (map (fun kv : option string * string => (Json.json_key kv.1, kv.2)) (store_of m))
  = store_of m.
Proof.
  unfold store_of. rewrite !map_map. apply map_ext. by intros [k v].
Qed.

(** C9: a mapping from strings to strings that is saved and then loaded
    comes back as it was, its entries in the order they had. *)
Theorem replacements_round_trip (json_error : string -> string)
    (m : odict string string) (w : world) :
  NoDup (dict_keys m) ->
  bind (save_replacements (store_of m)) (fun _ => load_replacements json_error) w
  = (Ok (store_of m),
     mkWorld (w_stdin w) (w_stdout w) (w_replacements w)
             (Some (Json.dumps (store_of m) +:+ Json.NL)) (w_branches w)).
Proof.
  intros Hnd. unfold bind, save_replacements, write_replacements_json.
  unfold load_replacements, bind, read_replacements_json.
  cbn [w_replacements_json].
  rewrite JsonFacts.loads_dumps, store_of_read_back, dict_of_pairs_NoDup; [done|].
  rewrite store_of_keys. by apply (NoDup_fmap_2 Some).
Qed.

Lemma replacements_round_trip_witness :
  bind (save_replacements
          (store_of [("brightness", "Adjust screen brightness");
                     ("tone", "Warm \ 'soft'")]))
       (fun _ => load_replacements Demo.json_error) (Demo.world0 [])
  = (Ok (store_of [("brightness", "Adjust screen brightness");
                   ("tone", "Warm \ 'soft'")]),
     mkWorld [] [] []
             (Some (Json.dumps (store_of [("brightness", "Adjust screen brightness");
                                          ("tone", "Warm \ 'soft'")]) +:+ Json.NL))
             []).
Proof.
  apply (replacements_round_trip Demo.json_error
           [("brightness", "Adjust screen brightness"); ("tone", "Warm \ 'soft'")]
           (Demo.world0 [])).
  apply (bool_decide_unpack _). vm_compute. exact I.
Defined.

(** ** Malformed files *)

(** C2, as the code has it: a table or a fragment that is fetched and is
    not well-formed makes the parser raise ParseError, and nothing catches
    it.  [scrape_features] ends with the exception for that branch, having
    printed at most: the terminal input, the store and the files are as
    they were, so no tree is written for the branch.  A run of [main] over
    branches among which that branch stands ends with an exception too,
    and replacements.json is not written. *)
Theorem parse_error_aborts
    (fromstring : string -> option Element)
    (requests_get : string -> string -> string + string)
    (json_error : string -> string)
    (branch token : string) (main_preferences : list Pref) :
  listing_is fromstring requests_get branch token main_preferences ->
  malformed_file fromstring requests_get branch token main_preferences ->
  (forall w, exists w',
      scrape_features fromstring requests_get branch token w = (Raise ParseError, w')
      /\ w_stdin w' = w_stdin w
      /\ w_replacements w' = w_replacements w
      /\ w_replacements_json w' = w_replacements_json w
      /\ w_branches w' = w_branches w)
  /\ (forall branches w,
        branch ∈ branches ->
        exists e w',
          main fromstring requests_get json_error token branches w = (Raise e, w')
          /\ w_replacements_json w' = w_replacements_json w).
Proof.
  intros Hlisting Hbad. split.
  - intros w. by eapply scrape_features_parse_error.
  - intros branches w Hin. eapply main_raises; [done|].
    intros w0.
    destruct (scrape_features_parse_error fromstring requests_get branch token
                main_preferences w0 Hlisting Hbad) as (w' & Hrun & _).
    by exists ParseError, w'.
Qed.

Lemma parse_error_aborts_witness :
  exists w',
    scrape_features Demo.fromstring Demo.requests_get_broken "main" "t" (Demo.world0 [])
    = (Raise ParseError, w')
    /\ w_stdin w' = []
    /\ w_replacements w' = []
    /\ w_replacements_json w' = None
    /\ w_branches w' = [].
Proof.
  apply (proj1 (parse_error_aborts Demo.fromstring Demo.requests_get_broken
                  Demo.json_error "main" "t"
                  (main_preferences_of Demo.listing_root)
                  ltac:(exists Demo.listing_xml, Demo.listing_root;
                        repeat split; [vm_compute; reflexivity..|done])
                  ltac:(apply (malformed_strings _ _ _ _ _ Demo.broken_xml);
                        vm_compute; reflexivity))
               (Demo.world0 [])).
Defined.

(** C2 as the specification words it fails: with a table of the branch
    that is not well-formed, the run does not go on with an empty table;
    it ends with ParseError, nothing is written for the branch and the
    store is not saved. *)
Lemma malformed_table_stops_run :
  Demo.fromstring Demo.broken_xml = None
  /\ exists w',
       main Demo.fromstring Demo.requests_get_broken Demo.json_error "t" ["main"]
            (Demo.world0 ["Adjust screen brightness"])
       = (Raise ParseError, w')
       /\ w_branches w' = []
       /\ w_replacements_json w' = None
       /\ w_stdout w' = ["Scraping main"].
Proof. split; [reflexivity|]. eexists. repeat split; vm_compute; reflexivity. Qed.

(** ** Instances *)


Lemma parse_strings_xml_last_wins_witness :
  exists table : StringTable,
    parse_strings_xml Demo.fromstring Demo.strings_xml = Some table
    /\ (forall name : option string,
          table !! name =
            (fun e => PyStr.or_empty (text e))
              <$> last (filter (fun e => get "name" e = name)
                               (findall "string" Demo.strings_root)))
    /\ size table
       = length (remove_dups (get "name" <$> findall "string" Demo.strings_root)).
Proof.
  apply (parse_strings_xml_last_wins Demo.fromstring Demo.strings_xml Demo.strings_root).
  reflexivity.
Defined.

(** * Further properties of the scraper *)

(** ** The comment stripper and the display normaliser *)

(** X1: [clean_xml_comments] hands every text back as it is, so applying
    it twice is applying it once. *)
Theorem clean_xml_comments_unchanged (xml_text : string) :
  clean_xml_comments xml_text = xml_text
  /\ clean_xml_comments (clean_xml_comments xml_text) = clean_xml_comments xml_text.
Proof. by rewrite !clean_xml_comments_id. Qed.

Lemma contains_cons (sub : string) (c : ascii) (s : string) :
  PyStr.contains sub (String c s)
  = PyStr.startswith sub (String c s) || PyStr.contains sub s.
Proof. cbn [PyStr.contains]. by destruct (PyStr.startswith sub (String c s)). Qed.

Lemma startswith_marker (c1 c2 : ascii) (s : string) :
  PyStr.startswith "\n" (String c1 (String c2 s))
  = Ascii.eqb "\" c1 && Ascii.eqb "n" c2.
Proof.
  cbn [PyStr.startswith]. by destruct (Ascii.eqb "\" c1), (Ascii.eqb "n" c2).
Qed.

Lemma startswith_marker_short (c1 : ascii) :
  PyStr.startswith "\n" (String c1 EmptyString) = false.
Proof. cbn [PyStr.startswith]. by destruct (Ascii.eqb "\" c1). Qed.

(** The first character of a first line is the first character of the
    text. *)
Lemma first_line_head (c : ascii) (s : string) :
  first_line (String c s) = EmptyString
  \/ exists s', first_line (String c s) = String c s'.
Proof.
  destruct s as [|c2 s]; [right; by exists EmptyString|].
  cbn [first_line]. destruct (_ && _); [by left|right; eauto].
Qed.

Lemma first_line_no_marker (s : string) :
  PyStr.contains "\n" (first_line s) = false.
Proof.
  induction s as [|c1 s IH]; [done|].
  destruct s as [|c2 s].
  - cbn [first_line]. rewrite contains_cons, startswith_marker_short. done.
  - change (first_line (String c1 (String c2 s)))
      with (if Ascii.eqb c1 "\" && Ascii.eqb c2 "n" then EmptyString
            else String c1 (first_line (String c2 s))).
    destruct (Ascii.eqb c1 "\" && Ascii.eqb c2 "n") eqn:Hm; [done|].
    rewrite contains_cons, IH, orb_false_r.
    destruct (first_line_head c2 s) as [->|[s' ->]].
    + apply startswith_marker_short.
    + rewrite startswith_marker.
      by rewrite (Ascii.eqb_sym "\" c1), (Ascii.eqb_sym "n" c2).
Qed.

(** The first character of an unescaped text is the first character of
    the text, or the quote that stands for an escaped one. *)
Lemma unescape_quotes_head (c : ascii) (s : string) :
  exists c' s', unescape_quotes (String c s) = String c' s'
                /\ (c' = c \/ c' = "'"%char).
Proof.
  destruct s as [|c2 s]; [by exists c, EmptyString; auto|].
  cbn [unescape_quotes].
  destruct (Ascii.eqb c "\" && Ascii.eqb c2 "'") eqn:Hq.
  - apply andb_true_iff in Hq as [_ Hq]. apply Ascii.eqb_eq in Hq as ->. eauto.
  - eauto.
Qed.

Lemma unescape_quotes_no_marker (s : string) :
  PyStr.contains "\n" s = false ->
  PyStr.contains "\n" (unescape_quotes s) = false.
Proof.
  cut ((PyStr.contains "\n" s = false ->
        PyStr.contains "\n" (unescape_quotes s) = false)
       /\ forall c, PyStr.contains "\n" (String c s) = false ->
                    PyStr.contains "\n" (unescape_quotes (String c s)) = false);
    [tauto|].
  induction s as [|c2 s [IH1 IH2]].
  - split; [done|]. intros c _. cbn [unescape_quotes].
    by rewrite contains_cons, startswith_marker_short.
  - split; [apply IH2|]. intros c1.
    rewrite contains_cons, startswith_marker, orb_false_iff. intros [Hm Hrest].
    change (unescape_quotes (String c1 (String c2 s)))
      with (if Ascii.eqb c1 "\" && Ascii.eqb c2 "'" then String c2 (unescape_quotes s)
            else String c1 (unescape_quotes (String c2 s))).
    destruct (Ascii.eqb c1 "\" && Ascii.eqb c2 "'") eqn:Hq.
    + apply andb_true_iff in Hq as [_ Hq]. apply Ascii.eqb_eq in Hq as ->.
      rewrite contains_cons in Hrest. apply orb_false_iff in Hrest as [_ Hrest].
      rewrite contains_cons, (IH1 Hrest), orb_false_r.
      destruct (unescape_quotes s) as [|c s']; [apply startswith_marker_short|].
      by rewrite startswith_marker.
    + rewrite contains_cons, (IH2 c2 Hrest), orb_false_r.
      destruct (unescape_quotes_head c2 s) as (c' & s' & -> & [->| ->]).
      * by rewrite startswith_marker.
      * rewrite startswith_marker. by destruct (Ascii.eqb "\" c1).
Qed.

(** X2: the text [clean_display_text] returns never holds the escaped
    newline marker (a backslash followed by the letter n): cutting at the
    first marker leaves none, and turning escaped quotes into quotes makes
    none. *)
Theorem clean_display_text_no_marker (text : option string) :
  PyStr.contains "\n" (clean_display_text text) = false.
Proof.
  destruct text as [[|c s]|]; try done.
  unfold clean_display_text. cbn [PyStr.truthy negb PyStr.or_empty].
  rewrite split_head_first_line, replace_unescape_quotes.
  apply unescape_quotes_no_marker, first_line_no_marker.
Qed.

(** ** The fragment parser *)

Lemma fragment_prefs_titled (category_elem : Element) :
  Forall (fun p => PyStr.truthy (title_key p) = true) (fragment_prefs category_elem).
Proof.
  unfold fragment_prefs.
  induction (children category_elem) as [|e es IH]; [constructor|].
  cbn [omap list_omap].
  destruct (PyStr.truthy (get_android_attr e "title")) eqn:Ht; [|done].
  by constructor.
Qed.

Lemma fragment_prefs_length (category_elem : Element) :
  length (fragment_prefs category_elem) <= length (children category_elem).
Proof.
  unfold fragment_prefs.
  induction (children category_elem) as [|e es IH]; [done|].
  cbn [omap list_omap]. destruct (PyStr.truthy _); cbn [length]; lia.
Qed.

(** X3: what [parse_preference_fragment_xml] returns for a text that
    parses: one category per PreferenceCategory child of the root, with or
    without a title; every preference kept has a title reference that is
    not empty, and a category keeps no more preferences than its element
    has children. *)
Theorem fragment_keeps_titled_preferences
    (fromstring : string -> option Element) (xml_text : string)
    (cats : list Category) :
  parse_preference_fragment_xml fromstring xml_text = Some cats ->
  exists root,
    fromstring (clean_xml_comments xml_text) = Some root
    /\ Forall2 (fun c e =>
                  cat_title_key c = get_android_attr e "title"
                  /\ Forall (fun p => PyStr.truthy (title_key p) = true) (preferences c)
                  /\ length (preferences c) <= length (children e))
               cats (findall "PreferenceCategory" root).
Proof.
  unfold parse_preference_fragment_xml.
  destruct (fromstring (clean_xml_comments xml_text)) as [root|]; [|done].
  cbn [mbind option_bind]. intros [= <-]. exists root. split; [done|].
  induction (findall "PreferenceCategory" root) as [|e es IH]; constructor; [|done].
  cbn [cat_title_key preferences].
  auto using fragment_prefs_titled, fragment_prefs_length.
Qed.

Lemma fragment_keeps_titled_preferences_witness :
  exists root,
    Demo.fromstring (clean_xml_comments Demo.fragment_xml) = Some root
    /\ Forall2 (fun c e =>
                  cat_title_key c = get_android_attr e "title"
                  /\ Forall (fun p => PyStr.truthy (title_key p) = true) (preferences c)
                  /\ length (preferences c) <= length (children e))
               [mkCategory (Some "@string/display_title")
                  [mkPref (Some "brightness") (Some "@string/brightness_title")
                          (Some "@string/brightness_summary")]]
               (findall "PreferenceCategory" root).
Proof.
  apply (fragment_keeps_titled_preferences Demo.fromstring Demo.fragment_xml).
  vm_compute. reflexivity.
Defined.

(** ** The visit of the categories *)

(** A fold whose steps all succeed without touching the state succeeds
    without touching the state. *)
Lemma foldM_pure {A B} (f : B -> A -> M B) (l : list A) (w : world) :
  Forall (fun x => forall acc, exists out, f acc x w = (Ok out, w)) l ->
  forall acc, exists out, foldM f acc l w = (Ok out, w).
Proof.
  induction 1 as [|x l Hx _ IH]; intros acc; cbn [foldM].
  - by exists acc.
  - destruct (Hx acc) as [acc1 Hrun]. rewrite (bind_ok _ _ _ _ _ Hrun). apply IH.
Qed.

Lemma visit_pref_covered (chain : list StringTable) (acc : odict string string)
    (pref : Pref) (w : world) :
  (needs_override (pref_summary chain pref) = true ->
   is_Some (dict_get (key pref) (w_replacements w))) ->
  exists out, visit_pref chain acc pref w = (Ok out, w).
Proof.
  intros Hcov. rewrite visit_pref_run.
  destruct (needs_override (pref_summary chain pref)); [|eauto].
  rewrite override_summary_run. destruct (Hcov eq_refl) as [stored ->]. eauto.
Qed.

(** X4: when the store holds an override for every preference whose
    summary is unresolved, the visit of the categories asks nothing: it
    returns the entries and leaves the terminal, the store and the files
    as they were. *)
Theorem visit_without_prompt (chain : list StringTable) (cats : list MainCat)
    (acc : list Entry) (w : world) :
  covered chain (w_replacements w) (concat (map all_prefs cats)) ->
  exists out, foldM (visit_main_cat chain) acc cats w = (Ok out, w).
Proof.
  unfold covered. intros Hcov. revert acc. apply foldM_pure.
  induction cats as [|c cats IH]; [constructor|].
  cbn [map concat] in Hcov. apply Forall_app in Hcov as [Hc Hcats].
  constructor; [|by apply IH]. clear IH Hcats.
  intros acc. unfold visit_main_cat.
  enough (forall acc0, exists out,
            foldM (visit_sub_cat chain) acc0 (mc_sub_preferences c) w = (Ok out, w))
    as Hsubs.
  { destruct (Hsubs [("summary", PStr (mc_summary c))]) as [entry Hrun].
    rewrite (bind_ok _ _ _ _ _ Hrun). eauto. }
  apply foldM_pure. unfold all_prefs in Hc.
  induction (mc_sub_preferences c) as [|sc subs IH]; [constructor|].
  cbn [map concat] in Hc. apply Forall_app in Hc as [Hsc Hsubs].
  constructor; [|by apply IH]. clear IH Hsubs.
  intros acc0. unfold visit_sub_cat.
  enough (forall acc1, exists out,
            foldM (visit_pref chain) acc1 (preferences sc) w = (Ok out, w))
    as Hprefs.
  { destruct (Hprefs []) as [features Hrun].
    rewrite (bind_ok _ _ _ _ _ Hrun). eauto. }
  apply foldM_pure. eapply Forall_impl; [exact Hsc|].
  intros p Hp acc1. by apply visit_pref_covered.
Qed.

Lemma visit_without_prompt_witness :
  exists out,
    foldM (visit_main_cat [])
          []
          [mkMainCat (Some "display") "Display" EmptyString
             [mkCategory (Some "Screen")
                [mkPref (Some "brightness") (Some "Brightness") None;
                 mkPref (Some "tone") (Some "Tone") (Some "Warm")]]]
          (mkWorld [] [] [(Some "brightness", "Adjust screen brightness")] None [])
    = (Ok out,
       mkWorld [] [] [(Some "brightness", "Adjust screen brightness")] None []).
Proof.
  apply (visit_without_prompt []
           [mkMainCat (Some "display") "Display" EmptyString
              [mkCategory (Some "Screen")
                 [mkPref (Some "brightness") (Some "Brightness") None;
                  mkPref (Some "tone") (Some "Tone") (Some "Warm")]]]
           []
           (mkWorld [] [] [(Some "brightness", "Adjust screen brightness")] None [])).
  repeat constructor; vm_compute; try discriminate; eauto.
Defined.

(** X5: a reply that is not empty is emitted, trimmed, and recorded
    under the key of the preference; a second visit of a preference with
    that key and title then takes the text from the store and asks
    nothing. *)
Theorem answered_once (chain : list StringTable)
    (acc acc' : odict string string) (pref : Pref) (w : world)
    (reply : string) (rest : list string) :
  needs_override (pref_summary chain pref) = true ->
  dict_get (key pref) (w_replacements w) = None ->
  w_stdin w = reply :: rest ->
  PyStr.strip reply <> EmptyString ->
  exists w1,
    visit_pref chain acc pref w
    = (Ok (dict_set (pref_title chain pref) (PyStr.strip reply) acc), w1)
    /\ w_stdin w1 = rest
    /\ dict_get (key pref) (w_replacements w1) = Some (PyStr.strip reply)
    /\ visit_pref chain acc' pref w1
       = (Ok (dict_set (pref_title chain pref) (PyStr.strip reply) acc'), w1).
Proof.
  intros Hneeds Hkey Hin Hreply.
  set (w' := asked (key pref) (pref_title chain pref) (pref_summary chain pref) rest w).
  exists (mkWorld (w_stdin w') (w_stdout w')
                  (dict_set (key pref) (PyStr.strip reply) (w_replacements w))
                  (w_replacements_json w') (w_branches w')).
  assert (PyStr.truthy (Some (PyStr.strip reply)) = true) as Htruthy
    by (by destruct (PyStr.strip reply)).
  split.
  { rewrite visit_pref_run, Hneeds, override_summary_run, Hkey, Hin. cbv zeta.
    by rewrite Htruthy. }
  split; [done|]. cbn [w_replacements].
  split; [apply dict_get_set_eq|].
  rewrite visit_pref_run, Hneeds, override_summary_run. cbn [w_replacements].
  by rewrite dict_get_set_eq.
Qed.

Lemma answered_once_witness :
  exists w1,
    visit_pref [] [] (mkPref (Some "brightness") (Some "Brightness") None)
               (Demo.world0 ["  Adjust screen brightness "])
    = (Ok [("Brightness", "Adjust screen brightness")], w1)
    /\ w_stdin w1 = []
    /\ dict_get (Some "brightness") (w_replacements w1)
       = Some "Adjust screen brightness"
    /\ visit_pref [] [("Contrast", "High")]
                  (mkPref (Some "brightness") (Some "Brightness") None) w1
       = (Ok [("Contrast", "High"); ("Brightness", "Adjust screen brightness")], w1).
Proof.
  apply (answered_once [] [] [("Contrast", "High")]
           (mkPref (Some "brightness") (Some "Brightness") None)
           (Demo.world0 ["  Adjust screen brightness "])
           "  Adjust screen brightness " []); try reflexivity.
  vm_compute. discriminate.
Defined.

(** ** What a run may change *)

(** X6: [scrape_features] never removes or changes an entry of the
    store: whatever the branch holds and whatever is replied, every key
    that had an override before the call has the same override after it. *)
Theorem scrape_features_keeps_overrides
    (fromstring : string -> option Element)
    (requests_get : string -> string -> string + string)
    (branch token : string) (w : world) :
  store_extends w (scrape_features fromstring requests_get branch token w).2.
Proof.
  revert w. change (grows_store (scrape_features fromstring requests_get branch token)).
  unfold scrape_features.
  apply grows_store_bind; [apply grows_store_print|intros _].
  apply grows_store_bind;
    [apply grows_store_parse_phase, parse_phase_fetch|intros content].
  destruct (negb _); [apply grows_store_print|].
  apply grows_store_bind;
    [apply grows_store_parse_phase, parse_phase_lift_parse|intros root].
  destruct (main_preferences_of root) as [|p ps]; [apply grows_store_print|].
  unfold scrape_preferences.
  apply grows_store_bind;
    [apply grows_store_parse_phase, parse_phase_load_strings_dict|intros sd].
  apply grows_store_bind.
  { apply grows_store_foldM. intros.
    apply grows_store_parse_phase, parse_phase_load_fallback. }
  intros fb. cbv zeta. apply grows_store_bind.
  { apply grows_store_foldM. intros.
    apply grows_store_parse_phase, parse_phase_load_main_cat. }
  intros cats. apply grows_store_bind.
  { apply grows_store_foldM. intros. apply grows_store_visit_main_cat. }
  intros tree. apply grows_store_bind;
    [apply grows_store_write_branch|intros; apply grows_store_print].
Qed.

Lemma scrape_features_keeps_overrides_witness :
  dict_get (Some "tone")
    (w_replacements
       (scrape_features Demo.fromstring Demo.requests_get "main" "t"
          (mkWorld ["Adjust screen brightness"] [] [(Some "tone", "Warm")] None [])).2)
  = Some "Warm".
Proof.
  apply (scrape_features_keeps_overrides Demo.fromstring Demo.requests_get "main" "t"
           (mkWorld ["Adjust screen brightness"] [] [(Some "tone", "Warm")] None [])).
  reflexivity.
Defined.

(** ** Enough replies *)

Lemma visit_pref_budget (chain : list StringTable) (acc : odict string string)
    (pref : Pref) (w : world) :
  1 <= length (w_stdin w) ->
  exists out w',
    visit_pref chain acc pref w = (Ok out, w')
    /\ length (w_stdin w) <= length (w_stdin w') + 1.
Proof.
  intros Hin. rewrite visit_pref_run.
  destruct (needs_override _); [|eexists _, _; split; [done|lia]].
  rewrite override_summary_run.
  destruct (dict_get _ _); [eexists _, _; split; [done|lia]|].
  destruct (w_stdin w) as [|reply rest] eqn:Hw; [cbn in Hin; lia|].
  cbv zeta. destruct (PyStr.truthy _); eexists _, _; (split; [done|]); cbn; lia.
Qed.

(** A fold whose steps each need at most [cost] replies needs at most the
    sum of the costs. *)
Lemma foldM_budget {A B} (f : B -> A -> M B) (cost : A -> nat) :
  (forall acc x w,
     cost x <= length (w_stdin w) ->
     exists out w', f acc x w = (Ok out, w')
                    /\ length (w_stdin w) <= length (w_stdin w') + cost x) ->
  forall l acc w,
    sum_list (cost <$> l) <= length (w_stdin w) ->
    exists out w', foldM f acc l w = (Ok out, w')
                   /\ length (w_stdin w) <= length (w_stdin w') + sum_list (cost <$> l).
Proof.
  intros Hf l. induction l as [|x l IH]; intros acc w Hsum; cbn [foldM].
  - exists acc, w. split; [done|]. cbn. lia.
  - rewrite fmap_cons in *. simpl sum_list_with in *.
    destruct (Hf acc x w) as (acc1 & w1 & Hrun & Hlen); [lia|].
    rewrite (bind_ok _ _ _ _ _ Hrun).
    destruct (IH acc1 w1) as (out & w' & Hrest & Hlen'); [lia|].
    exists out, w'. split; [done|lia].
Qed.

Lemma sum_list_ones {A} (l : list A) : sum_list ((fun _ => 1) <$> l) = length l.
Proof. induction l as [|x l IH]; [done|]. rewrite fmap_cons. simpl. by rewrite IH. Qed.

Lemma max_prompts_sum (cats : list MainCat) :
  max_prompts cats
  = sum_list ((fun c => sum_list ((fun sc => length (preferences sc))
                                    <$> mc_sub_preferences c)) <$> cats).
Proof.
  unfold max_prompts. induction cats as [|c cats IH]; [done|].
  cbn [map concat]. rewrite length_app, IH, fmap_cons. simpl sum_list_with.
  f_equal. unfold all_prefs.
  induction (mc_sub_preferences c) as [|sc subs IHs]; [done|].
  cbn [map concat]. rewrite length_app, IHs, fmap_cons. done.
Qed.

(** X7: with at least as many lines on the terminal as the categories
    have preferences, the visit of the categories returns its entries (it
    never ends with EOFError) and reads no more lines than that. *)
Theorem visit_returns_with_enough_replies (chain : list StringTable)
    (cats : list MainCat) (acc : list Entry) (w : world) :
  max_prompts cats <= length (w_stdin w) ->
  exists out w',
    foldM (visit_main_cat chain) acc cats w = (Ok out, w')
    /\ length (w_stdin w) <= length (w_stdin w') + max_prompts cats.
Proof.
  rewrite max_prompts_sum. revert cats acc w. apply foldM_budget.
  intros acc c w Hc. unfold visit_main_cat.
  destruct (foldM_budget (visit_sub_cat chain) (fun sc => length (preferences sc)))
    with (l := mc_sub_preferences c) (acc := [("summary", PStr (mc_summary c))])
         (w := w) as (entry & w' & Hrun & Hlen); [|done|].
  - intros acc0 sc w0 Hsc. unfold visit_sub_cat.
    destruct (foldM_budget (visit_pref chain) (fun _ => 1))
      with (l := preferences sc) (acc := @nil (string * string)) (w := w0)
      as (features & w1 & Hrun & Hlen).
    + intros. by apply visit_pref_budget.
    + by rewrite sum_list_ones.
    + rewrite (bind_ok _ _ _ _ _ Hrun). eexists _, _. split; [done|].
      by rewrite sum_list_ones in Hlen.
  - rewrite (bind_ok _ _ _ _ _ Hrun). eexists _, _. split; [done|]. done.
Qed.

Lemma visit_returns_with_enough_replies_witness :
  exists out w',
    foldM (visit_main_cat []) []
          [mkMainCat (Some "display") "Display" EmptyString
             [mkCategory (Some "Screen")
                [mkPref (Some "brightness") (Some "Brightness") None;
                 mkPref (Some "tone") (Some "Tone") (Some "Warm")]]]
          (Demo.world0 ["Bright"; "unused"])
    = (Ok out, w')
    /\ length (w_stdin (Demo.world0 ["Bright"; "unused"]))
       <= length (w_stdin w')
          + max_prompts
              [mkMainCat (Some "display") "Display" EmptyString
                 [mkCategory (Some "Screen")
                    [mkPref (Some "brightness") (Some "Brightness") None;
                     mkPref (Some "tone") (Some "Tone") (Some "Warm")]]].
Proof.
  apply (visit_returns_with_enough_replies []
           [mkMainCat (Some "display") "Display" EmptyString
              [mkCategory (Some "Screen")
                 [mkPref (Some "brightness") (Some "Brightness") None;
                  mkPref (Some "tone") (Some "Tone") (Some "Warm")]]]
           [] (Demo.world0 ["Bright"; "unused"])).
  vm_compute. lia.
Defined.

(** ** The files a run writes *)

Lemma keeps_branches_ret {A} (a : A) : keeps_branches (ret a).
Proof. done. Qed.

Lemma keeps_branches_print (msg : string) : keeps_branches (print msg).
Proof. done. Qed.

Lemma keeps_branches_bind {A B} (m : M A) (k : A -> M B) :
  keeps_branches m -> (forall a, keeps_branches (k a)) -> keeps_branches (bind m k).
Proof.
  intros Hm Hk w. unfold bind. specialize (Hm w).
  destruct (m w) as [[a|e] w1]; cbn [snd] in *; [|done].
  by rewrite Hk.
Qed.

Lemma keeps_branches_foldM {A B} (f : B -> A -> M B) (l : list A) :
  (forall acc x, keeps_branches (f acc x)) ->
  forall acc, keeps_branches (foldM f acc l).
Proof.
  intros Hf. induction l as [|x l IH]; intros acc; cbn [foldM].
  - apply keeps_branches_ret.
  - by apply keeps_branches_bind.
Qed.

Lemma keeps_branches_parse_phase {A} (m : M A) : parse_phase m -> keeps_branches m.
Proof. intros Hm w. by destruct (Hm w) as [(_ & _ & _ & ?) _]. Qed.

Lemma keeps_branches_override_summary (pref_key : option string)
    (title summary : string) :
  keeps_branches (override_summary pref_key title summary).
Proof.
  intros w. rewrite override_summary_run.
  destruct (dict_get _ _); [done|].
  destruct (w_stdin w); [done|]. cbv zeta. by destruct (PyStr.truthy _).
Qed.

Lemma keeps_branches_visit_main_cat (chain : list StringTable)
    (acc : list Entry) (main_cat : MainCat) :
  keeps_branches (visit_main_cat chain acc main_cat).
Proof.
  unfold visit_main_cat.
  apply keeps_branches_bind; [|intros; apply keeps_branches_ret].
  apply keeps_branches_foldM. intros acc0 sc. unfold visit_sub_cat.
  apply keeps_branches_bind; [|intros; apply keeps_branches_ret].
  apply keeps_branches_foldM. intros acc1 p. unfold visit_pref.
  apply keeps_branches_bind; [|intros; apply keeps_branches_ret].
  destruct (needs_override _);
    [apply keeps_branches_override_summary|apply keeps_branches_ret].
Qed.

Lemma writes_at_most_keeps {A} (filename : string) (m : M A) :
  keeps_branches m -> writes_at_most filename m.
Proof. intros Hm w. rewrite Hm. by split. Qed.

Lemma writes_at_most_bind {A B} (filename : string) (m : M A) (k : A -> M B) :
  keeps_branches m -> (forall a, writes_at_most filename (k a)) ->
  writes_at_most filename (bind m k).
Proof.
  intros Hm Hk w. unfold bind. specialize (Hm w).
  destruct (m w) as [[a|e] w1]; cbn [fst snd] in *.
  - rewrite <-Hm. apply Hk.
  - rewrite Hm. by split.
Qed.

Lemma writes_at_most_write (filename msg : string) (tree : list Entry) :
  writes_at_most filename (bind (write_branch filename tree) (fun _ => print msg)).
Proof.
  intros w. split; [|done]. intros f Hf. cbn. by apply dict_get_set_ne.
Qed.

(** X8: [scrape_features] touches no tree but the one of its branch, and
    when it ends with an exception it has written none. *)
Theorem scrape_features_writes_one_file
    (fromstring : string -> option Element)
    (requests_get : string -> string -> string + string)
    (branch token : string) (w : world) :
  let filename := os_path_join "branches" (branch +:+ ".json") in
  let r := scrape_features fromstring requests_get branch token w in
  (forall f, f <> filename -> dict_get f (w_branches r.2) = dict_get f (w_branches w))
  /\ (forall e, r.1 = Raise e -> w_branches r.2 = w_branches w).
Proof.
  cbv zeta. revert w.
  change (writes_at_most (os_path_join "branches" (branch +:+ ".json"))
            (scrape_features fromstring requests_get branch token)).
  unfold scrape_features.
  apply writes_at_most_bind; [apply keeps_branches_print|intros _].
  apply writes_at_most_bind;
    [apply keeps_branches_parse_phase, parse_phase_fetch|intros content].
  destruct (negb _); [apply writes_at_most_keeps, keeps_branches_print|].
  apply writes_at_most_bind;
    [apply keeps_branches_parse_phase, parse_phase_lift_parse|intros root].
  destruct (main_preferences_of root) as [|p ps];
    [apply writes_at_most_keeps, keeps_branches_print|].
  unfold scrape_preferences.
  apply writes_at_most_bind;
    [apply keeps_branches_parse_phase, parse_phase_load_strings_dict|intros sd].
  apply writes_at_most_bind.
  { apply keeps_branches_foldM. intros.
    apply keeps_branches_parse_phase, parse_phase_load_fallback. }
  intros fb. cbv zeta. apply writes_at_most_bind.
  { apply keeps_branches_foldM. intros.
    apply keeps_branches_parse_phase, parse_phase_load_main_cat. }
  intros cats. apply writes_at_most_bind.
  { apply keeps_branches_foldM. intros. apply keeps_branches_visit_main_cat. }
  intros tree. apply writes_at_most_write.
Qed.

(** ** The end of a run *)

(** X10: when [main] ends with an exception, replacements.json is as it
    was before the run: the overrides entered during the run are not
    saved. *)
Theorem main_exception_saves_nothing
    (fromstring : string -> option Element)
    (requests_get : string -> string -> string + string)
    (json_error : string -> string)
    (github_token : string) (branches : list string) (w w' : world) (e : exn) :
  main fromstring requests_get json_error github_token branches w = (Raise e, w') ->
  w_replacements_json w' = w_replacements_json w.
Proof.
  unfold main. unfold bind at 1.
  pose proof (keeps_json_load_replacements json_error w) as Hload.
  destruct (load_replacements json_error w) as [[r|e0] w1]; cbn [snd] in Hload;
    [|by intros [= _ <-]].
  unfold bind at 1. cbn [set_replacements].
  set (w2 := mkWorld _ _ _ _ _).
  unfold bind at 1.
  pose proof (keeps_json_foldM
                (fun (_ : unit) branch =>
                   scrape_features fromstring requests_get branch github_token)
                branches
                (fun _ b => keeps_json_scrape_features fromstring requests_get
                              b github_token)
                tt w2) as Hfold.
  destruct (foldM _ tt branches w2) as [[[]|e1] w3]; cbn [snd] in Hfold.
  - discriminate.
  - intros [= _ <-]. by rewrite Hfold.
Qed.

Lemma main_exception_saves_nothing_witness :
  w_replacements_json
    (main Demo.fromstring Demo.requests_get Demo.json_error "t" ["main"]
          (Demo.world0 [])).2
  = w_replacements_json (Demo.world0 []).
Proof.
  apply (main_exception_saves_nothing Demo.fromstring Demo.requests_get
           Demo.json_error "t" ["main"] (Demo.world0 []) _ EOFError).
  vm_compute. reflexivity.
Defined.

(** ** The stored overrides *)

Lemma last_filter_json_key (d : Store) (k : string) :
  snd <$> last (filter (fun kv : option string * string => kv.1 = Some k)
                       (map (fun kv : option string * string =>
                               (Some (Json.json_key kv.1), kv.2)) d))
  = snd <$> last (filter (fun kv : option string * string =>
                            Json.json_key kv.1 = k) d).
Proof.
  induction d as [|[k0 v0] d IH] using rev_ind; [done|].
  rewrite map_app. rewrite filter_app. rewrite (filter_app _ d).
  cbn [map]. rewrite !filter_cons, !filter_nil. cbn [fst snd].
  destruct (decide (Json.json_key k0 = k)) as [Hk|Hk].
  - rewrite decide_True by (by rewrite Hk). by rewrite !last_snoc.
  - rewrite decide_False by (intros [= ?]; done). by rewrite !app_nil_r.
Qed.

(** X12: what a store gives when it is saved and loaded again, whatever
    its keys: an entry keyed by the absent key is found under the string
    null, where two entries meet under one key the later one stays, and
    nothing is found under the absent key any more, so an override that
    was recorded for a preference without key is asked for again by the
    next run. *)
Theorem saved_store_reloads_under_string_keys
    (json_error : string -> string) (d : Store) (w : world) :
  exists loaded w',
    bind (save_replacements d) (fun _ => load_replacements json_error) w
    = (Ok loaded, w')
    /\ dict_get None loaded = None
    /\ forall k : string,
         dict_get (Some k) loaded
         = snd <$> last (filter (fun kv => Json.json_key kv.1 = k) d).
Proof.
  eexists _, _. split.
  { unfold bind, save_replacements, write_replacements_json.
    unfold load_replacements, bind, read_replacements_json.
    cbn [w_replacements_json]. by rewrite JsonFacts.loads_dumps. }
  rewrite !map_map. cbn [fst snd]. split.
  - apply dict_get_None. rewrite dict_of_pairs_keys, keep_first_elem_of.
    intros Hin. apply list_elem_of_fmap in Hin as ([k v] & Hk & Hin).
    by apply list_elem_of_fmap in Hin as ([k0 v0] & [= -> ->] & _).
  - intros k. rewrite dict_of_pairs_get. apply last_filter_json_key.
Qed.

Lemma saved_store_reloads_under_string_keys_witness :
  exists loaded w',
    bind (save_replacements [(None, "Adjust screen brightness")])
         (fun _ => load_replacements Demo.json_error) (Demo.world0 [])
    = (Ok loaded, w')
    /\ dict_get None loaded = None
    /\ forall k : string,
         dict_get (Some k) loaded
         = snd <$> last (filter (fun kv => Json.json_key kv.1 = k)
                                [(None, "Adjust screen brightness")]).
Proof.
  apply (saved_store_reloads_under_string_keys Demo.json_error
           [(None, "Adjust screen brightness")] (Demo.world0 [])).
Defined.

(** ** What a branch may lack *)

(** X13: when the listing of a branch cannot be fetched, is empty, or
    has no Preference child, [scrape_features] ends normally: it prints,
    and it reads no reply, changes no override and writes no file. *)
Theorem scrape_features_skips_branch
    (fromstring : string -> option Element)
    (requests_get : string -> string -> string + string)
    (branch token : string) (w : world) :
  nothing_to_scrape fromstring requests_get branch token ->
  exists w',
    scrape_features fromstring requests_get branch token w = (Ok tt, w')
    /\ printed_only w w'.
Proof.
  unfold nothing_to_scrape, scrape_features, fetch_file_content.
  destruct (requests_get _ token) as [e|content].
  - intros _. eexists. split; [done|]. by repeat split.
  - intros [->|(root & Hroot & Hnone)].
    + eexists. split; [done|]. by repeat split.
    + destruct content as [|c s].
      * eexists. split; [done|]. by repeat split.
      * unfold bind. cbn [print ret PyStr.truthy negb PyStr.or_empty fst snd].
        rewrite Hroot. cbn [lift_parse ret]. unfold main_preferences_of.
        rewrite Hnone. eexists. split; [done|]. by repeat split.
Qed.

Lemma scrape_features_skips_branch_witness :
  exists w',
    scrape_features Demo.fromstring Demo.requests_get "udc" "t"
                    (Demo.world0 ["unused"])
    = (Ok tt, w')
    /\ printed_only (Demo.world0 ["unused"]) w'.
Proof.
  apply (scrape_features_skips_branch Demo.fromstring Demo.requests_get "udc" "t"
           (Demo.world0 ["unused"])).
  vm_compute. exact I.
Defined.

(** X14: a listing that is fetched and is not well-formed makes
    [scrape_features] end with ParseError right after its first line was
    printed; nothing else has happened. *)
Theorem scrape_features_malformed_listing
    (fromstring : string -> option Element)
    (requests_get : string -> string -> string + string)
    (branch token content : string) (w : world) :
  requests_get (raw_url "packages_apps_Evolver" branch
                        "res/xml/evolution_settings.xml") token = inr content ->
  content <> EmptyString ->
  fromstring (clean_xml_comments content) = None ->
  scrape_features fromstring requests_get branch token w
  = (Raise ParseError,
     mkWorld (w_stdin w) (w_stdout w ++ ["Scraping " +:+ branch])
             (w_replacements w) (w_replacements_json w) (w_branches w)).
Proof.
  intros Hget Hne Hparse. unfold scrape_features, fetch_file_content, bind.
  cbn [print fst snd]. rewrite Hget.
  destruct content as [|c s]; [done|].
  cbn [ret PyStr.truthy negb PyStr.or_empty]. by rewrite Hparse.
Qed.

Lemma scrape_features_malformed_listing_witness :
  scrape_features Demo.fromstring (fun _ _ => inr Demo.broken_xml) "main" "t"
                  (Demo.world0 [])
  = (Raise ParseError, mkWorld [] ["Scraping main"] [] None []).
Proof.
  apply (scrape_features_malformed_listing Demo.fromstring
           (fun _ _ => inr Demo.broken_xml) "main" "t" Demo.broken_xml
           (Demo.world0 [])); [reflexivity|discriminate|reflexivity].
Defined.

(** X15: a top-level descriptor other than about whose fragment cannot
    be fetched, or is empty, still gives a category, one without
    sub-categories; the entry of that category holds its summary and
    nothing else, and its visit asks nothing. *)
Theorem missing_fragment_gives_summary_only
    (fromstring : string -> option Element)
    (requests_get : string -> string -> string + string)
    (branch token : string) (chain : list StringTable)
    (cats : list MainCat) (main_pref : Pref) (w : world) :
  not_about main_pref ->
  fragment_missing requests_get branch token main_pref ->
  exists w',
    load_main_cat fromstring requests_get branch token chain cats main_pref w
    = (Ok (cats ++ [mkMainCat (key main_pref) (pref_title chain main_pref)
                              (pref_summary chain main_pref) []]), w')
    /\ printed_only w w'
    /\ forall (tree : list Entry) (w0 : world),
         visit_main_cat chain tree
           (mkMainCat (key main_pref) (pref_title chain main_pref)
                      (pref_summary chain main_pref) []) w0
         = (Ok (tree ++ [(pref_title chain main_pref,
                          [("summary", PStr (pref_summary chain main_pref))])]), w0).
Proof.
  intros Hnot Hmiss. unfold fragment_missing in Hmiss.
  unfold load_main_cat, fetch_file_content. rewrite decide_False by done.
  fold (pref_title chain main_pref) (pref_summary chain main_pref).
  destruct (requests_get _ token) as [e|content].
  - eexists. split; [done|]. split; [by repeat split|done].
  - subst content. eexists. split; [done|]. split; [by repeat split|done].
Qed.

Lemma missing_fragment_gives_summary_only_witness :
  exists w',
    load_main_cat Demo.fromstring Demo.requests_get "main" "t" [] []
                  (mkPref (Some "sound") (Some "Sound") (Some "Volume and tones"))
                  (Demo.world0 [])
    = (Ok ([] ++ [mkMainCat (Some "sound")
                    (pref_title [] (mkPref (Some "sound") (Some "Sound")
                                           (Some "Volume and tones")))
                    (pref_summary [] (mkPref (Some "sound") (Some "Sound")
                                             (Some "Volume and tones"))) []]), w')
    /\ printed_only (Demo.world0 []) w'
    /\ forall (tree : list Entry) (w0 : world),
         visit_main_cat [] tree
           (mkMainCat (Some "sound")
              (pref_title [] (mkPref (Some "sound") (Some "Sound")
                                     (Some "Volume and tones")))
              (pref_summary [] (mkPref (Some "sound") (Some "Sound")
                                       (Some "Volume and tones"))) []) w0
         = (Ok (tree ++ [(pref_title [] (mkPref (Some "sound") (Some "Sound")
                                                (Some "Volume and tones")),
                          [("summary",
                            PStr (pref_summary [] (mkPref (Some "sound") (Some "Sound")
                                                          (Some "Volume and tones"))))])]),
            w0).
Proof.
  apply (missing_fragment_gives_summary_only Demo.fromstring Demo.requests_get
           "main" "t" [] []
           (mkPref (Some "sound") (Some "Sound") (Some "Volume and tones"))
           (Demo.world0 [])).
  - unfold not_about. discriminate.
  - vm_compute. exact I.
Defined.

(** ** The summary key of a category *)

Lemma visit_sub_cat_other_key (chain : list StringTable)
    (acc out : odict string pyval) (sub_cat : Category) (w w' : world) (k : string) :
  sub_cat_title chain sub_cat <> k ->
  visit_sub_cat chain acc sub_cat w = (Ok out, w') ->
  dict_get k out = dict_get k acc.
Proof.
  unfold visit_sub_cat. fold (sub_cat_title chain sub_cat). intros Hne Hrun.
  apply bind_inv_ok in Hrun as (features & w1 & _ & [= <- _]).
  by apply dict_get_set_ne.
Qed.

Lemma visit_sub_cat_own_key (chain : list StringTable)
    (acc out : odict string pyval) (sub_cat : Category) (w w' : world) :
  visit_sub_cat chain acc sub_cat w = (Ok out, w') ->
  exists features, dict_get (sub_cat_title chain sub_cat) out = Some (PDict features).
Proof.
  unfold visit_sub_cat. fold (sub_cat_title chain sub_cat). intros Hrun.
  apply bind_inv_ok in Hrun as (features & w1 & _ & [= <- _]).
  exists features. apply dict_get_set_eq.
Qed.

Lemma visit_sub_cats_other_key (chain : list StringTable) (k : string)
    (subs : list Category) :
  Forall (fun sc => sub_cat_title chain sc <> k) subs ->
  forall (acc out : odict string pyval) (w w' : world),
    foldM (visit_sub_cat chain) acc subs w = (Ok out, w') ->
    dict_get k out = dict_get k acc.
Proof.
  induction 1 as [|sc subs Hne _ IH]; intros acc out w w' Hrun.
  - by injection Hrun as <- _.
  - apply foldM_inv_cons in Hrun as (acc1 & w1 & Hsc & Hrest).
    rewrite (IH _ _ _ _ Hrest). by eapply visit_sub_cat_other_key.
Qed.

Lemma visit_sub_cats_own_key (chain : list StringTable) (k : string)
    (subs : list Category) :
  Exists (fun sc => sub_cat_title chain sc = k) subs ->
  forall (acc out : odict string pyval) (w w' : world),
    foldM (visit_sub_cat chain) acc subs w = (Ok out, w') ->
    exists features, dict_get k out = Some (PDict features).
Proof.
  induction subs as [|sc subs IH]; intros Hex acc out w w' Hrun;
    [by apply Exists_nil in Hex|].
  apply foldM_inv_cons in Hrun as (acc1 & w1 & Hsc & Hrest).
  destruct (decide (Exists (fun sc => sub_cat_title chain sc = k) subs))
    as [Hlater|Hnot]; [by eapply IH|].
  apply Exists_cons in Hex as [Hhere|Hlater]; [|done].
  apply visit_sub_cat_own_key in Hsc as [features Hget]. rewrite Hhere in Hget.
  exists features. rewrite <-Hget.
  eapply visit_sub_cats_other_key; [|done].
  apply Forall_forall. intros sc' Hin Heq. apply Hnot, Exists_exists. eauto.
Qed.

(** X16: the summary of a category stands under the key summary of its
    entry as long as none of its sub-categories resolves to the title
    summary; a sub-category with that title takes the place of the summary
    text with its features. *)
Theorem summary_key_of_entry (chain : list StringTable) (acc out : list Entry)
    (main_cat : MainCat) (w w' : world) :
  visit_main_cat chain acc main_cat w = (Ok out, w') ->
  exists cat_entry,
    out = acc ++ [(mc_title main_cat, cat_entry)]
    /\ (Forall (fun sc => sub_cat_title chain sc <> "summary")
               (mc_sub_preferences main_cat) ->
        dict_get "summary" cat_entry = Some (PStr (mc_summary main_cat)))
    /\ (Exists (fun sc => sub_cat_title chain sc = "summary")
               (mc_sub_preferences main_cat) ->
        exists features, dict_get "summary" cat_entry = Some (PDict features)).
Proof.
  unfold visit_main_cat. intros Hrun.
  apply bind_inv_ok in Hrun as (cat_entry & w1 & Hsubs & [= <- _]).
  exists cat_entry. split; [done|]. split.
  - intros Hall.
    by rewrite (visit_sub_cats_other_key chain "summary" _ Hall _ _ _ _ Hsubs).
  - intros Hex. by eapply visit_sub_cats_own_key.
Qed.

Lemma summary_key_of_entry_witness :
  exists cat_entry,
    [("Display", [("summary", PStr "Screen settings");
                  ("Screen", PDict [("Tone", "Warm")])])]
    = [] ++ [(mc_title (mkMainCat (Some "display") "Display" "Screen settings"
                          [mkCategory (Some "Screen")
                             [mkPref (Some "tone") (Some "Tone") (Some "Warm")]]),
              cat_entry)]
    /\ (Forall (fun sc => sub_cat_title [] sc <> "summary")
               [mkCategory (Some "Screen")
                  [mkPref (Some "tone") (Some "Tone") (Some "Warm")]] ->
        dict_get "summary" cat_entry = Some (PStr "Screen settings"))
    /\ (Exists (fun sc => sub_cat_title [] sc = "summary")
               [mkCategory (Some "Screen")
                  [mkPref (Some "tone") (Some "Tone") (Some "Warm")]] ->
        exists features, dict_get "summary" cat_entry = Some (PDict features)).
Proof.
  apply (summary_key_of_entry [] [] _
           (mkMainCat (Some "display") "Display" "Screen settings"
              [mkCategory (Some "Screen")
                 [mkPref (Some "tone") (Some "Tone") (Some "Warm")]])
           (Demo.world0 []) (Demo.world0 [])).
  vm_compute. reflexivity.
Defined.
